(** * LiveChat-IA: the provider-agent layer

    A shallow embedding of [src/agents/] (base_agent.py, the five provider
    clients, agent_factory.py) and of the one method of [src/utils/logger.py]
    that the agents call with keyword arguments.

    Python objects are dynamically typed, so the embedding works over one type
    of run-time values ([value]) with the partial operations the source uses
    ([in], subscription, [len], [.get], [.strip], [sorted], truth testing).
    An operation that raises in Python returns [Raise e] in the [result]
    monad; a [try ... except] is a match on that result.  The network is an
    oracle handed to every method that calls [requests].

    Conventions.
    - A [str] is a [string]; one [ascii] stands for one character.  The
      accented letters of the Spanish message literals appear as the bytes the
      source file holds for them.  No statement below depends on the length of
      a literal.
    - A [dict] with string keys is an association list in insertion order,
      keys pairwise distinct: the order of a dict literal is the order of the
      JSON object that goes on the wire.
    - [float] values are carried as the rational they denote ([Q]); the cost
      estimators are evaluated exactly over [Q].
    - Calls to [app_logger.info/warning/error] return [None] and write to the
      log files only; they are left out.  [time.time()] only feeds the log.
    - The registry of classes is the static [AGENT_CLASSES];
      [register_agent_class], [get_agent_info] and Gemini's
      [format_safety_settings] are not embedded.  The manager's table of
      instances is a [gmap]. *)

From Stdlib Require Import String Ascii List ZArith QArith Lia Lqa Bool.
From Stdlib Require Import DecimalString Sorted Permutation.
From stdpp Require Import gmap strings.
Import ListNotations.

Set Warnings "-register-all".

Local Open Scope string_scope.
Local Open Scope list_scope.

(** ** Python run-time values *)

Module Py.

Inductive value : Type :=
| VNone
| VBool (b : bool)
| VInt (n : Z)
| VFloat (q : Q)
| VStr (s : string)
| VList (l : list value)
| VDict (d : list (string * value)).

(** A [dict] whose keys are strings. *)
Definition dict : Type := list (string * value).

(** Exception classes that can reach a handler of the agents.  The first
    group are the classes of [requests.exceptions]; all of them derive from
    [RequestException], and [ConnectTimeout], [ProxyError] and [SSLError]
    derive from [ConnectionError]. *)
Inductive exn_class : Type :=
| ReqConnectionError
| ReqConnectTimeout
| ReqProxyError
| ReqSSLError
| ReqReadTimeout
| ReqHTTPError
| ReqInvalidJSON
| ReqOther
| KeyError
| IndexError
| TypeError
| AttributeError
| ValueError
| PlainException.

(** An exception object: its class and what [str(e)] returns. *)
Record exn : Type := MkExn { exn_class_of : exn_class; exn_str : string }.

Definition isinstance_ConnectionError (e : exn) : bool :=
  match exn_class_of e with
  | ReqConnectionError | ReqConnectTimeout | ReqProxyError | ReqSSLError => true
  | _ => false
  end.

Definition isinstance_RequestException (e : exn) : bool :=
  match exn_class_of e with
  | ReqConnectionError | ReqConnectTimeout | ReqProxyError | ReqSSLError
  | ReqReadTimeout | ReqHTTPError | ReqInvalidJSON | ReqOther => true
  | _ => false
  end.

(** Every class above derives from [Exception], so [except Exception] is a
    catch-all for them. *)

Inductive result (A : Type) : Type :=
| Ok (a : A)
| Raise (e : exn).
Arguments Ok {A} a.
Arguments Raise {A} e.

Definition bind {A B : Type} (r : result A) (k : A -> result B) : result B :=
  match r with
  | Ok a => k a
  | Raise e => Raise e
  end.

Definition raise {A : Type} (c : exn_class) (msg : string) : result A :=
  Raise (MkExn c msg).

Definition type_name (v : value) : string :=
  match v with
  | VNone => "NoneType"
  | VBool _ => "bool"
  | VInt _ => "int"
  | VFloat _ => "float"
  | VStr _ => "str"
  | VList _ => "list"
  | VDict _ => "dict"
  end.

(** Truth value testing ([if x], [not x], [x or y]). *)
Definition truthy (v : value) : bool :=
  match v with
  | VNone => false
  | VBool b => b
  | VInt n => negb (n =? 0)%Z
  | VFloat q => negb (Qeq_bool q 0)
  | VStr s => negb (String.eqb s "")
  | VList l => match l with [] => false | _ => true end
  | VDict d => match d with [] => false | _ => true end
  end.

(** [x or y] *)
Definition or_else (x y : value) : value := if truthy x then x else y.

(** *** Dictionaries *)

Fixpoint lookup_key (k : string) (d : dict) : option value :=
  match d with
  | [] => None
  | (k', v) :: d' => if String.eqb k k' then Some v else lookup_key k d'
  end.

(** [d.get(k)] and [d.get(k, dflt)] *)
Definition get (d : dict) (k : string) : value :=
  match lookup_key k d with Some v => v | None => VNone end.

Definition get_or (d : dict) (k : string) (dflt : value) : value :=
  match lookup_key k d with Some v => v | None => dflt end.

(** [d[k] = v]: an existing key keeps its place. *)
Fixpoint set_item (k : string) (v : value) (d : dict) : dict :=
  match d with
  | [] => [(k, v)]
  | (k', v') :: d' =>
      if String.eqb k k' then (k', v) :: d' else (k', v') :: set_item k v d'
  end.

(** [{**d, **extra}]: the entries of [extra] are set one by one. *)
Definition update (d extra : dict) : dict :=
  fold_left (fun acc kv => set_item (fst kv) (snd kv) acc) extra d.

(** A dict display [{k1: v1, ..., **rest}]. *)
Definition display (items : list (string * value)) : dict := update [] items.

(** The operand of [**] must be a mapping. *)
Definition mapping (v : value) : result dict :=
  match v with
  | VDict d => Ok d
  | _ => raise TypeError ("'" ++ type_name v ++ "' object is not a mapping")
  end.

(** *** Strings *)

Fixpoint is_substring (x s : string) : bool :=
  String.prefix x s ||
  match s with
  | EmptyString => false
  | String _ s' => is_substring x s'
  end.

(** The ASCII characters [str.strip()] removes: TAB..CR, FS..US and space. *)
Definition is_space (c : ascii) : bool :=
  let n := nat_of_ascii c in
  ((9 <=? n)%nat && (n <=? 13)%nat) || ((28 <=? n)%nat && (n <=? 32)%nat).

Fixpoint lstrip (s : string) : string :=
  match s with
  | EmptyString => EmptyString
  | String c s' => if is_space c then lstrip s' else s
  end.

Fixpoint rstrip (s : string) : string :=
  match s with
  | EmptyString => EmptyString
  | String c s' =>
      match rstrip s' with
      | EmptyString => if is_space c then EmptyString else String c EmptyString
      | r => String c r
      end
  end.

Definition str_strip (s : string) : string := rstrip (lstrip s).

(** [s.replace(old, new)] for a non-empty [old]: occurrences are replaced
    from the left and do not overlap; [skip] counts the characters of an
    occurrence still to be dropped. *)
Fixpoint replace_from (old new : string) (skip : nat) (s : string) : string :=
  match s with
  | EmptyString => EmptyString
  | String c s' =>
      match skip with
      | S n => replace_from old new n s'
      | O =>
          if String.prefix old s
          then new ++ replace_from old new (String.length old - 1) s'
          else String c (replace_from old new 0 s')
      end
  end.

Definition str_replace (old new s : string) : string := replace_from old new 0 s.

(** ASCII lower-casing.  [str.lower()] also maps letters outside ASCII; of
    those only U+212A (KELVIN SIGN, to [k]) lands in ASCII, and no provider
    key contains a [k]. *)
Definition lower_ascii (c : ascii) : ascii :=
  let n := nat_of_ascii c in
  if ((65 <=? n)%nat && (n <=? 90)%nat) then ascii_of_nat (n + 32) else c.

Fixpoint lower (s : string) : string :=
  match s with
  | EmptyString => EmptyString
  | String c s' => String (lower_ascii c) (lower s')
  end.

(** *** Result monad *)

Notation "x <- e ;; k" := (bind e (fun x => k))
  (at level 100, e at next level, right associativity).

(** *** Dynamically typed operations *)

(** [v == s] for a string literal [s] *)
Definition eq_str (v : value) (s : string) : bool :=
  match v with
  | VStr t => String.eqb t s
  | _ => false
  end.

(** [k in v] for a string [k]: a key of a dict, an element of a list, a
    substring of a str. *)
Definition contains (k : string) (v : value) : result bool :=
  match v with
  | VDict d => Ok (match lookup_key k d with Some _ => true | None => false end)
  | VList l => Ok (existsb (fun x => eq_str x k) l)
  | VStr s => Ok (is_substring k s)
  | _ => raise TypeError ("argument of type '" ++ type_name v ++ "' is not iterable")
  end.

(** [v[k]] for a string [k] *)
Definition item (v : value) (k : string) : result value :=
  match v with
  | VDict d =>
      match lookup_key k d with
      | Some x => Ok x
      | None => raise KeyError ("'" ++ k ++ "'")
      end
  | VList _ => raise TypeError "list indices must be integers or slices, not str"
  | VStr _ => raise TypeError "string indices must be integers, not 'str'"
  | _ => raise TypeError ("'" ++ type_name v ++ "' object is not subscriptable")
  end.

(** [v[0]]; the keys of a dict here are strings, so [0] is never one. *)
Definition item0 (v : value) : result value :=
  match v with
  | VList (x :: _) => Ok x
  | VList [] => raise IndexError "list index out of range"
  | VStr (String c _) => Ok (VStr (String c EmptyString))
  | VStr EmptyString => raise IndexError "string index out of range"
  | VDict _ => raise KeyError "0"
  | _ => raise TypeError ("'" ++ type_name v ++ "' object is not subscriptable")
  end.

(** [len(v)] *)
Definition len (v : value) : result nat :=
  match v with
  | VStr s => Ok (String.length s)
  | VList l => Ok (length l)
  | VDict d => Ok (length d)
  | _ => raise TypeError ("object of type '" ++ type_name v ++ "' has no len()")
  end.

Definition no_attribute {A : Type} (v : value) (attr : string) : result A :=
  raise AttributeError
    ("'" ++ type_name v ++ "' object has no attribute '" ++ attr ++ "'").

(** [v.get(k, dflt)] *)
Definition method_get (v : value) (k : string) (dflt : value) : result value :=
  match v with
  | VDict d => Ok (get_or d k dflt)
  | _ => no_attribute v "get"
  end.

(** [v.strip()] *)
Definition method_strip (v : value) : result string :=
  match v with
  | VStr s => Ok (str_strip s)
  | _ => no_attribute v "strip"
  end.

(** [v.replace(old, new)] *)
Definition method_replace (v : value) (old new : string) : result value :=
  match v with
  | VStr s => Ok (VStr (str_replace old new s))
  | _ => no_attribute v "replace"
  end.

Fixpoint chars (s : string) : list value :=
  match s with
  | EmptyString => []
  | String c s' => VStr (String c EmptyString) :: chars s'
  end.

(** The elements [for x in v] runs over. *)
Definition iterate (v : value) : result (list value) :=
  match v with
  | VList l => Ok l
  | VStr s => Ok (chars s)
  | VDict d => Ok (map (fun kv => VStr (fst kv)) d)
  | _ => raise TypeError ("'" ++ type_name v ++ "' object is not iterable")
  end.

(** [[f(x) for x in l]]: the first element on which [f] raises ends it. *)
Fixpoint for_each {A B : Type} (f : A -> result B) (l : list A) : result (list B) :=
  match l with
  | [] => Ok []
  | x :: l' => y <- f x ;; ys <- for_each f l' ;; Ok (y :: ys)
  end.

(** [[x for x in l if p(x)]] *)
Fixpoint select {A : Type} (p : A -> result bool) (l : list A) : result (list A) :=
  match l with
  | [] => Ok []
  | x :: l' => b <- p x ;; ys <- select p l' ;; Ok (if b then x :: ys else ys)
  end.

(** [any(p(x) for x in l)]: stops at the first true. *)
Fixpoint any {A : Type} (p : A -> result bool) (l : list A) : result bool :=
  match l with
  | [] => Ok false
  | x :: l' => b <- p x ;; if b then Ok true else any p l'
  end.

(** *** Comparison and [sorted] *)

(** [bool], [int] and [float] compare by numeric value. *)
Definition num_of (v : value) : option Q :=
  match v with
  | VBool b => Some (if b then 1%Q else 0%Q)
  | VInt n => Some (inject_Z n)
  | VFloat q => Some q
  | _ => None
  end.

Fixpoint py_eq (a b : value) {struct a} : bool :=
  match a, b with
  | VNone, VNone => true
  | VStr s, VStr t => String.eqb s t
  | VList l, VList m =>
      (fix eq_list (l m : list value) {struct l} : bool :=
         match l, m with
         | [], [] => true
         | x :: l', y :: m' => py_eq x y && eq_list l' m'
         | _, _ => false
         end) l m
  | VDict d, VDict e =>
      Nat.eqb (length d) (length e) &&
      (fix eq_items (d : list (string * value)) {struct d} : bool :=
         match d with
         | [] => true
         | (k, v) :: d' =>
             match lookup_key k e with
             | Some w => py_eq v w
             | None => false
             end && eq_items d'
         end) d
  | _, _ =>
      match num_of a, num_of b with
      | Some p, Some q => Qeq_bool p q
      | _, _ => false
      end
  end.

Definition not_ordered {A : Type} (a b : value) : result A :=
  raise TypeError
    ("'<' not supported between instances of '" ++ type_name a ++ "' and '"
       ++ type_name b ++ "'").

(** [a < b]: strings by character code, numbers by value, lists
    lexicographically (the first pair of unequal elements decides). *)
Fixpoint py_lt (a b : value) {struct a} : result bool :=
  match a, b with
  | VStr s, VStr t => Ok (String.ltb s t)
  | VList l, VList m =>
      (fix lt_list (l m : list value) {struct l} : result bool :=
         match l, m with
         | [], [] => Ok false
         | [], _ :: _ => Ok true
         | _ :: _, [] => Ok false
         | x :: l', y :: m' => if py_eq x y then lt_list l' m' else py_lt x y
         end) l m
  | _, _ =>
      match num_of a, num_of b with
      | Some p, Some q => Ok (negb (Qle_bool q p))
      | _, _ => not_ordered a b
      end
  end.

(** [sorted(l)] as a stable insertion sort on [<].  CPython's sort picks the
    pairs it compares differently; on a list whose elements are pairwise
    comparable (the listings of model names are lists of [str]) the result is
    the same, and a list of at most one element is returned without any
    comparison. *)
Fixpoint insert_sorted (x : value) (l : list value) : result (list value) :=
  match l with
  | [] => Ok [x]
  | y :: l' =>
      b <- py_lt y x ;;
      if b then r <- insert_sorted x l' ;; Ok (y :: r) else Ok (x :: l)
  end.

Fixpoint sorted (l : list value) : result (list value) :=
  match l with
  | [] => Ok []
  | x :: l' => r <- sorted l' ;; insert_sorted x r
  end.

Definition hashable (v : value) : bool :=
  match v with
  | VList _ | VDict _ => false
  | _ => true
  end.

(** [table.get(key, dflt)] on a dict literal with string keys: the key is
    hashed first, which a list or a dict refuses; a key that is not a string
    equals none of the table's. *)
Definition table_get {A : Type} (table : list (string * A)) (key : value) (dflt : A)
    : result A :=
  match key with
  | VStr k =>
      Ok (match find (fun kv => String.eqb k (fst kv)) table with
          | Some kv => snd kv
          | None => dflt
          end)
  | VList _ | VDict _ => raise TypeError ("unhashable type: '" ++ type_name key ++ "'")
  | _ => Ok dflt
  end.

(** [str(v)], as an f-string applies it to an interpolated object: a [str] is
    inserted as it is; the text of any other object is Python's business and
    comes from [render]. *)
Definition format (render : value -> string) (v : value) : string :=
  match v with
  | VStr s => s
  | _ => render v
  end.

Definition newline : string := String (ascii_of_nat 10) EmptyString.

(** *** Calls with keyword arguments *)

(** Binding the keywords of a call [f(k1=v1, ...)] to the parameters of [f]:
    a keyword that names no parameter is a [TypeError], and so is a required
    parameter left without a value (CPython reports the first kind first, and
    lists all missing parameters in the second; the text of the second is
    shortened here to the first one missing). *)
Fixpoint unexpected_keyword (params : list string) (kwargs : dict) : option string :=
  match kwargs with
  | [] => None
  | (k, _) :: rest =>
      if existsb (String.eqb k) params then unexpected_keyword params rest
      else Some k
  end.

Fixpoint missing_parameter (required : list string) (kwargs : dict) : option string :=
  match required with
  | [] => None
  | p :: rest =>
      match lookup_key p kwargs with
      | Some _ => missing_parameter rest kwargs
      | None => Some p
      end
  end.

Definition bind_keywords (fname : string) (required optional : list string)
    (kwargs : dict) : result unit :=
  match unexpected_keyword (required ++ optional) kwargs with
  | Some k =>
      raise TypeError (fname ++ "() got an unexpected keyword argument '" ++ k ++ "'")
  | None =>
      match missing_parameter required kwargs with
      | Some p =>
          raise TypeError (fname ++ "() missing required argument: '" ++ p ++ "'")
      | None => Ok tt
      end
  end.

(** *** More of the run time *)

(** [str(n)] for an [int]. *)
Definition str_of_int (n : Z) : string := NilZero.string_of_int (Z.to_int n).

(** [x in l] for a list [l]: some element equals [x]. *)
Definition member (x : value) (l : list value) : bool :=
  existsb (fun el => py_eq el x) l.

(** [sep.join(items)]: every item must be a [str]. *)
Fixpoint join_from (i : nat) (sep : string) (items : list value) : result string :=
  match items with
  | [] => Ok ""
  | VStr s :: rest =>
      match rest with
      | [] => Ok s
      | _ => tail <- join_from (S i) sep rest ;; Ok (s ++ sep ++ tail)%string
      end
  | v :: _ =>
      raise TypeError
        ("sequence item " ++ str_of_int (Z.of_nat i) ++ ": expected str instance, "
           ++ type_name v ++ " found")
  end.

Definition join (sep : string) (items : list value) : result string :=
  join_from 0 sep items.

End Py.

Import Py.

(** ** The [requests] boundary *)

Module Requests.

Inductive http_method : Type := GET | POST.

(** An f-string before rendering: literal text and interpolated objects.
    URLs and header values are only handed on to [requests], so they are kept
    in this form. *)
Inductive part : Type :=
| Lit (s : string)
| Fmt (v : value).

Definition fstring : Type := list part.

Record request : Type := MkRequest {
  req_method : http_method;
  req_url : fstring;
  req_headers : option (list (string * fstring));
  req_json : option dict;
  req_timeout : Z
}.

(** A reply as the agents read it: the status code, what [response.json()]
    does (the decoded body, or the exception it raises on a body that is not
    JSON), the raw text, and what [str()] gives for the [HTTPError] that
    [raise_for_status] builds. *)
Record response : Type := MkResponse {
  status_code : Z;
  json : result value;
  text : string;
  http_error : string
}.

(** [response.raise_for_status()] raises for 4xx and 5xx. *)
Definition raise_for_status (r : response) : result unit :=
  if ((400 <=? status_code r)%Z && (status_code r <? 600)%Z)%bool
  then raise ReqHTTPError (http_error r)
  else Ok tt.

(** What is outside the program: the network, answering each request with a
    reply or with the exception [requests] raises, and the clock. *)
Record world : Type := MkWorld {
  send : request -> result response;
  elapsed_ms : Z
}.

End Requests.

Import Requests.

(** ** utils/logger.py *)

Module Logger.

(** [Logger.log_chat_interaction(self, user_id, session_id, user_message,
    agent_response, response_time_ms=None)], called with keyword arguments.
    Its body takes [len] of both texts and calls [self.info]. *)
Definition log_chat_interaction (kwargs : dict) : result unit :=
  _ <- bind_keywords "Logger.log_chat_interaction"
         ["user_id"; "session_id"; "user_message"; "agent_response"]
         ["response_time_ms"] kwargs ;;
  _ <- len (get kwargs "user_message") ;;
  _ <- len (get kwargs "agent_response") ;;
  Ok tt.

End Logger.

(** ** agents/base_agent.py *)

Module BaseAgent.

(** The attributes [BaseAgent.__init__] sets. *)
Record base : Type := MkBase {
  config : dict;
  name : value;
  provider : value;
  model_name : value;
  api_key : value;
  api_url : value;
  max_tokens : value;
  temperature : value;
  default_params : value
}.

Definition init (config : dict) : base :=
  {| config := config;
     name := get_or config "name" (VStr "Agente Desconocido");
     provider := get_or config "provider" (VStr "");
     model_name := get_or config "model_name" (VStr "");
     api_key := get_or config "api_key" (VStr "");
     api_url := get_or config "api_url" (VStr "");
     max_tokens := get_or config "max_tokens" (VInt 2048);
     temperature := get_or config "temperature" (VFloat (7 # 10));
     default_params := get_or config "default_params" (VDict []) |}.

Definition required_fields : list string := ["name"; "provider"; "model_name"].

(** The loop [for field in fields: if not config.get(field): return False]. *)
Fixpoint all_present (config : dict) (fields : list string) : bool :=
  match fields with
  | [] => true
  | field :: rest =>
      if negb (truthy (get config field)) then false
      else all_present config rest
  end.

Definition validate_config (self : base) : bool :=
  if negb (all_present (config self) required_fields) then false
  else if (negb (truthy (api_key self)) && negb (eq_str (provider self) "ollama"))%bool
  then false
  else true.

(** [log_interaction] passes [message=], [response=] and [agent_name=] to
    [Logger.log_chat_interaction]. *)
Definition log_interaction (self : base) (message : string) (response : value)
    (response_time_ms : Z) : result unit :=
  Logger.log_chat_interaction
    [("user_id", VNone);
     ("session_id", VNone);
     ("message", VStr message);
     ("response", response);
     ("response_time_ms", VInt response_time_ms);
     ("agent_name", name self)].

Definition get_info (self : base) : dict :=
  display
    [("name", name self);
     ("provider", provider self);
     ("model_name", model_name self);
     ("max_tokens", max_tokens self);
     ("temperature", temperature self);
     ("status", VStr (if validate_config self then "configured" else "error"))].

(** The five subclasses, and an instance: the base attributes plus what the
    subclass constructor derives ([base_url]; [headers] where the class has
    them). *)
Inductive agent_class : Type :=
| ClsOpenAI
| ClsClaude
| ClsGemini
| ClsOllama
| ClsGroq.

Record agent : Type := MkAgent {
  cls : agent_class;
  self_base :> base;
  base_url : value;
  headers : option (list (string * fstring))
}.

(** The turn [{"role": "user", "content": message}]. *)
Definition turn (role : string) (content : value) : value :=
  VDict (display [("role", VStr role); ("content", content)]).

(** [if context:] holds for a list with at least one element. *)
Definition turns_of (context : option (list dict)) : list dict :=
  match context with
  | Some l => l
  | None => []
  end.

End BaseAgent.

Import BaseAgent.

(** ** agents/openai_agent.py *)

Module OpenAIAgent.

Definition init (config : dict) : agent :=
  let self := BaseAgent.init config in
  {| cls := ClsOpenAI;
     self_base := self;
     base_url := or_else (api_url self) (VStr "https://api.openai.com/v1");
     headers := Some [("Authorization", [Lit "Bearer "; Fmt (api_key self)]);
                      ("Content-Type", [Lit "application/json"])] |}.

Definition messages (message : string) (context : option (list dict)) : list value :=
  map VDict (turns_of context) ++ [turn "user" (VStr message)].

Definition payload (self : agent) (message : string) (context : option (list dict))
    : result dict :=
  extra <- mapping (default_params self) ;;
  Ok (update
        (display [("model", model_name self);
                  ("messages", VList (messages message context));
                  ("max_tokens", max_tokens self);
                  ("temperature", temperature self)])
        extra).

Definition chat_request (self : agent) (body : dict) : request :=
  {| req_method := POST;
     req_url := [Fmt (base_url self); Lit "/chat/completions"];
     req_headers := headers self;
     req_json := Some body;
     req_timeout := 30 |}.

(** [data['choices'][0]['message']['content']] *)
Definition response_text (data : value) : result value :=
  choices <- item data "choices" ;;
  first <- item0 choices ;;
  msg <- item first "message" ;;
  item msg "content".

(** The body of the [try] in [get_response]. *)
Definition get_response_try (w : world) (self : agent) (message : string)
    (context : option (list dict)) : result string :=
  body <- payload self message context ;;
  response <- send w (chat_request self body) ;;
  _ <- raise_for_status response ;;
  data <- json response ;;
  has_choices <- contains "choices" data ;;
  nonempty <- (if has_choices
               then choices <- item data "choices" ;; n <- len choices ;; Ok (0 <? n)%nat
               else Ok false) ;;
  if nonempty : bool
  then
    text <- response_text data ;;
    _ <- log_interaction self message text (elapsed_ms w) ;;
    method_strip text
  else raise PlainException "Respuesta inválida de OpenAI".

Definition get_response (w : world) (self : agent) (message : string)
    (context : option (list dict)) : string :=
  match get_response_try w self message context with
  | Ok reply => reply
  | Raise e =>
      if isinstance_RequestException e
      then "Error: " ++ ("Error de conexión con OpenAI: " ++ exn_str e)
      else "Error: " ++ ("Error procesando respuesta de OpenAI: " ++ exn_str e)
  end.

Definition fallback_models : list value :=
  [VStr "gpt-4o"; VStr "gpt-4o-mini"; VStr "gpt-4-turbo"; VStr "gpt-3.5-turbo"].

Definition models_request (self : agent) : request :=
  {| req_method := GET;
     req_url := [Fmt (base_url self); Lit "/models"];
     req_headers := headers self;
     req_json := None;
     req_timeout := 10 |}.

(** The body of the [try] in [get_available_models]. *)
Definition get_available_models_try (w : world) (self : agent) : result (list value) :=
  response <- send w (models_request self) ;;
  if (status_code response =? 200)%Z
  then
    data <- json response ;;
    has_data <- contains "data" data ;;
    if has_data : bool
    then
      listing <- item data "data" ;;
      entries <- iterate listing ;;
      models <- for_each (fun model => item model "id") entries ;;
      chat_models <- select (fun m => any (fun x => contains x m) ["gpt-4"; "gpt-3.5"])
                       models ;;
      sorted chat_models
    else Ok fallback_models
  else Ok fallback_models.

Definition get_available_models (w : world) (self : agent) : list value :=
  match get_available_models_try w self with
  | Ok models => models
  | Raise _ => fallback_models
  end.

(** Rates per model, USD per 1000 estimated tokens: (input, output). *)
Definition costs : list (string * (Q * Q)) :=
  [("gpt-4o", (0.005, 0.015));
   ("gpt-4o-mini", (0.00015, 0.0006));
   ("gpt-4-turbo", (0.01, 0.03));
   ("gpt-3.5-turbo", (0.0005, 0.0015))]%Q.

Definition estimate_cost (self : agent) (message response : string) : result Q :=
  let input_chars := String.length message in
  let output_chars := String.length response in
  let input_tokens := (input_chars / 4)%nat in
  let output_tokens := (output_chars / 4)%nat in
  model_costs <- table_get costs (model_name self) (0.00015, 0.0006)%Q ;;
  let input_cost := ((inject_Z (Z.of_nat input_tokens) / 1000) * fst model_costs)%Q in
  let output_cost := ((inject_Z (Z.of_nat output_tokens) / 1000) * snd model_costs)%Q in
  Ok (input_cost + output_cost)%Q.


(** The body of the [try] in [test_connection]. *)
Definition test_connection_try (w : world) (self : agent) : result dict :=
  response <- send w (models_request self) ;;
  if (status_code response =? 200)%Z
  then Ok (display [("success", VBool true);
                    ("message", VStr "Conexión exitosa con OpenAI");
                    ("status_code", VInt (status_code response))])
  else Ok (display [("success", VBool false);
                    ("error", VStr ("Error HTTP " ++ str_of_int (status_code response)));
                    ("message", VStr (text response))]).

Definition test_connection (w : world) (self : agent) : dict :=
  match test_connection_try w self with
  | Ok r => r
  | Raise e =>
      display [("success", VBool false);
               ("error", VStr (exn_str e));
               ("message", VStr "No se pudo conectar con OpenAI")]
  end.

End OpenAIAgent.

(** ** agents/groq_agent.py *)

Module GroqAgent.

Definition init (config : dict) : agent :=
  let self := BaseAgent.init config in
  {| cls := ClsGroq;
     self_base := self;
     base_url := or_else (api_url self) (VStr "https://api.groq.com/openai/v1");
     headers := Some [("Authorization", [Lit "Bearer "; Fmt (api_key self)]);
                      ("Content-Type", [Lit "application/json"])] |}.

Definition messages (message : string) (context : option (list dict)) : list value :=
  map VDict (turns_of context) ++ [turn "user" (VStr message)].

Definition payload (self : agent) (message : string) (context : option (list dict))
    : result dict :=
  extra <- mapping (default_params self) ;;
  Ok (update
        (display [("model", model_name self);
                  ("messages", VList (messages message context));
                  ("max_tokens", max_tokens self);
                  ("temperature", temperature self)])
        extra).

Definition chat_request (self : agent) (body : dict) : request :=
  {| req_method := POST;
     req_url := [Fmt (base_url self); Lit "/chat/completions"];
     req_headers := headers self;
     req_json := Some body;
     req_timeout := 30 |}.

Definition response_text (data : value) : result value :=
  choices <- item data "choices" ;;
  first <- item0 choices ;;
  msg <- item first "message" ;;
  item msg "content".

Definition get_response_try (w : world) (self : agent) (message : string)
    (context : option (list dict)) : result string :=
  body <- payload self message context ;;
  response <- send w (chat_request self body) ;;
  _ <- raise_for_status response ;;
  data <- json response ;;
  has_choices <- contains "choices" data ;;
  nonempty <- (if has_choices
               then choices <- item data "choices" ;; n <- len choices ;; Ok (0 <? n)%nat
               else Ok false) ;;
  if nonempty : bool
  then
    text <- response_text data ;;
    _ <- log_interaction self message text (elapsed_ms w) ;;
    method_strip text
  else raise PlainException "Respuesta inválida de Groq".

Definition get_response (w : world) (self : agent) (message : string)
    (context : option (list dict)) : string :=
  match get_response_try w self message context with
  | Ok reply => reply
  | Raise e =>
      if isinstance_RequestException e
      then "Error: " ++ ("Error de conexión con Groq: " ++ exn_str e)
      else "Error: " ++ ("Error procesando respuesta de Groq: " ++ exn_str e)
  end.

Definition fallback_models : list value :=
  [VStr "llama-3.1-70b-versatile"; VStr "llama-3.1-8b-instant";
   VStr "mixtral-8x7b-32768"; VStr "gemma-7b-it"].

Definition models_request (self : agent) : request :=
  {| req_method := GET;
     req_url := [Fmt (base_url self); Lit "/models"];
     req_headers := headers self;
     req_json := None;
     req_timeout := 10 |}.

Definition get_available_models_try (w : world) (self : agent) : result (list value) :=
  response <- send w (models_request self) ;;
  if (status_code response =? 200)%Z
  then
    data <- json response ;;
    has_data <- contains "data" data ;;
    if has_data : bool
    then
      listing <- item data "data" ;;
      entries <- iterate listing ;;
      models <- for_each (fun model => item model "id") entries ;;
      sorted models
    else Ok fallback_models
  else Ok fallback_models.

Definition get_available_models (w : world) (self : agent) : list value :=
  match get_available_models_try w self with
  | Ok models => models
  | Raise _ => fallback_models
  end.

Definition costs : list (string * (Q * Q)) :=
  [("llama-3.1-70b-versatile", (0.00059, 0.00079));
   ("llama-3.1-8b-instant", (0.00005, 0.00008));
   ("mixtral-8x7b-32768", (0.00024, 0.00024));
   ("gemma-7b-it", (0.00007, 0.00007))]%Q.

Definition estimate_cost (self : agent) (message response : string) : result Q :=
  let input_chars := String.length message in
  let output_chars := String.length response in
  let input_tokens := (input_chars / 4)%nat in
  let output_tokens := (output_chars / 4)%nat in
  model_costs <- table_get costs (model_name self) (0.00059, 0.00079)%Q ;;
  let input_cost := ((inject_Z (Z.of_nat input_tokens) / 1000) * fst model_costs)%Q in
  let output_cost := ((inject_Z (Z.of_nat output_tokens) / 1000) * snd model_costs)%Q in
  Ok (input_cost + output_cost)%Q.


(** The body of the [try] in [test_connection]. *)
Definition test_connection_try (w : world) (self : agent) : result dict :=
  response <- send w (models_request self) ;;
  if (status_code response =? 200)%Z
  then Ok (display [("success", VBool true);
                    ("message", VStr "Conexión exitosa con Groq");
                    ("status_code", VInt (status_code response))])
  else Ok (display [("success", VBool false);
                    ("error", VStr ("Error HTTP " ++ str_of_int (status_code response)));
                    ("message", VStr (text response))]).

Definition test_connection (w : world) (self : agent) : dict :=
  match test_connection_try w self with
  | Ok r => r
  | Raise e =>
      display [("success", VBool false);
               ("error", VStr (exn_str e));
               ("message", VStr "No se pudo conectar con Groq")]
  end.

Definition model_info : list (string * dict) :=
  [("llama-3.1-70b-versatile",
    display [("context_length", VInt 131072);
             ("description",
              VStr "Modelo Llama 3.1 70B optimizado por Groq para velocidad")]);
   ("llama-3.1-8b-instant",
    display [("context_length", VInt 131072);
             ("description", VStr "Modelo Llama 3.1 8B ultrarrápido")]);
   ("mixtral-8x7b-32768",
    display [("context_length", VInt 32768);
             ("description", VStr "Modelo Mixtral 8x7B con contexto extendido")]);
   ("gemma-7b-it",
    display [("context_length", VInt 8192);
             ("description", VStr "Modelo Gemma 7B instruction-tuned")])].

(** [get_model_info] has no [try]: an unhashable [model_name] raises. *)
Definition get_model_info (self : agent) : result dict :=
  table_get model_info (model_name self)
    (display [("context_length", VInt 8192);
              ("description", VStr "Modelo de Groq")]).

End GroqAgent.

(** ** agents/claude_agent.py *)

Module ClaudeAgent.

Definition init (config : dict) : agent :=
  let self := BaseAgent.init config in
  {| cls := ClsClaude;
     self_base := self;
     base_url := or_else (api_url self) (VStr "https://api.anthropic.com/v1");
     headers := Some [("x-api-key", [Fmt (api_key self)]);
                      ("Content-Type", [Lit "application/json"]);
                      ("anthropic-version", [Lit "2023-06-01"])] |}.

(** The loop over [context]: a turn is appended when its role is ['user'] or
    ['assistant'], and [msg['content']] is read only then. *)
Fixpoint convert (turns : list dict) : result (list value) :=
  match turns with
  | [] => Ok []
  | msg :: rest =>
      if eq_str (get msg "role") "user"
      then c <- item (VDict msg) "content" ;;
           r <- convert rest ;;
           Ok (turn "user" c :: r)
      else if eq_str (get msg "role") "assistant"
      then c <- item (VDict msg) "content" ;;
           r <- convert rest ;;
           Ok (turn "assistant" c :: r)
      else convert rest
  end.

Definition messages (message : string) (context : option (list dict))
    : result (list value) :=
  converted <- convert (turns_of context) ;;
  Ok (converted ++ [turn "user" (VStr message)]).

Definition payload (self : agent) (message : string) (context : option (list dict))
    : result dict :=
  msgs <- messages message context ;;
  extra <- mapping (default_params self) ;;
  Ok (update
        (display [("model", model_name self);
                  ("max_tokens", max_tokens self);
                  ("temperature", temperature self);
                  ("messages", VList msgs)])
        extra).

Definition messages_request (self : agent) (body : dict) : request :=
  {| req_method := POST;
     req_url := [Fmt (base_url self); Lit "/messages"];
     req_headers := headers self;
     req_json := Some body;
     req_timeout := 30 |}.

(** [data['content'][0]['text']] *)
Definition response_text (data : value) : result value :=
  content <- item data "content" ;;
  first <- item0 content ;;
  item first "text".

Definition get_response_try (w : world) (self : agent) (message : string)
    (context : option (list dict)) : result string :=
  body <- payload self message context ;;
  response <- send w (messages_request self body) ;;
  _ <- raise_for_status response ;;
  data <- json response ;;
  has_content <- contains "content" data ;;
  nonempty <- (if has_content
               then content <- item data "content" ;; n <- len content ;; Ok (0 <? n)%nat
               else Ok false) ;;
  if nonempty : bool
  then
    text <- response_text data ;;
    _ <- log_interaction self message text (elapsed_ms w) ;;
    method_strip text
  else raise PlainException "Respuesta inválida de Claude".

Definition get_response (w : world) (self : agent) (message : string)
    (context : option (list dict)) : string :=
  match get_response_try w self message context with
  | Ok reply => reply
  | Raise e =>
      if isinstance_RequestException e
      then "Error: " ++ ("Error de conexión con Claude: " ++ exn_str e)
      else "Error: " ++ ("Error procesando respuesta de Claude: " ++ exn_str e)
  end.

(** No listing endpoint: the known models, without a network call. *)
Definition known_models : list value :=
  [VStr "claude-3-5-sonnet-20241022"; VStr "claude-3-opus-20240229";
   VStr "claude-3-sonnet-20240229"; VStr "claude-3-haiku-20240307"].

Definition get_available_models (self : agent) : list value := known_models.

Definition costs : list (string * (Q * Q)) :=
  [("claude-3-5-sonnet-20241022", (0.003, 0.015));
   ("claude-3-opus-20240229", (0.015, 0.075));
   ("claude-3-sonnet-20240229", (0.003, 0.015));
   ("claude-3-haiku-20240307", (0.00025, 0.00125))]%Q.

Definition estimate_cost (self : agent) (message response : string) : result Q :=
  let input_chars := String.length message in
  let output_chars := String.length response in
  let input_tokens := (input_chars / 4)%nat in
  let output_tokens := (output_chars / 4)%nat in
  model_costs <- table_get costs (model_name self) (0.003, 0.015)%Q ;;
  let input_cost := ((inject_Z (Z.of_nat input_tokens) / 1000) * fst model_costs)%Q in
  let output_cost := ((inject_Z (Z.of_nat output_tokens) / 1000) * snd model_costs)%Q in
  Ok (input_cost + output_cost)%Q.


(** No listing endpoint: the probe is a completion request of ten tokens. *)
Definition test_request (self : agent) : request :=
  {| req_method := POST;
     req_url := [Fmt (base_url self); Lit "/messages"];
     req_headers := headers self;
     req_json :=
       Some (display [("model", model_name self);
                      ("max_tokens", VInt 10);
                      ("messages", VList [turn "user" (VStr "Test")])]);
     req_timeout := 10 |}.

(** The body of the [try] in [test_connection]. *)
Definition test_connection_try (w : world) (self : agent) : result dict :=
  response <- send w (test_request self) ;;
  if (status_code response =? 200)%Z
  then Ok (display [("success", VBool true);
                    ("message", VStr "Conexión exitosa con Claude");
                    ("status_code", VInt (status_code response))])
  else Ok (display [("success", VBool false);
                    ("error", VStr ("Error HTTP " ++ str_of_int (status_code response)));
                    ("message", VStr (text response))]).

Definition test_connection (w : world) (self : agent) : dict :=
  match test_connection_try w self with
  | Ok r => r
  | Raise e =>
      display [("success", VBool false);
               ("error", VStr (exn_str e));
               ("message", VStr "No se pudo conectar con Claude")]
  end.

Definition format_system_prompt (self : agent) (system_message : value) : dict :=
  display [("system", system_message)].

End ClaudeAgent.

(** ** agents/gemini_agent.py *)

Module GeminiAgent.

Definition init (config : dict) : agent :=
  let self := BaseAgent.init config in
  {| cls := ClsGemini;
     self_base := self;
     base_url := or_else (api_url self)
                   (VStr "https://generativelanguage.googleapis.com/v1");
     headers := None |}.

Definition content_of (role : string) (text : value) : value :=
  VDict (display [("role", VStr role);
                  ("parts", VList [VDict (display [("text", text)])])]).

(** Every role other than ['user'] becomes ["model"]. *)
Fixpoint convert (turns : list dict) : result (list value) :=
  match turns with
  | [] => Ok []
  | msg :: rest =>
      let role := if eq_str (get msg "role") "user" then "user" else "model" in
      c <- item (VDict msg) "content" ;;
      r <- convert rest ;;
      Ok (content_of role c :: r)
  end.

Definition contents (message : string) (context : option (list dict))
    : result (list value) :=
  converted <- convert (turns_of context) ;;
  Ok (converted ++ [content_of "user" (VStr message)]).

Definition payload (self : agent) (message : string) (context : option (list dict))
    : result dict :=
  cs <- contents message context ;;
  extra <- mapping (default_params self) ;;
  Ok (display
        [("contents", VList cs);
         ("generationConfig",
          VDict (update
                   (display [("temperature", temperature self);
                             ("maxOutputTokens", max_tokens self)])
                   extra))]).

Definition generate_request (self : agent) (body : dict) : request :=
  {| req_method := POST;
     req_url := [Fmt (base_url self); Lit "/models/"; Fmt (model_name self);
                 Lit ":generateContent?key="; Fmt (api_key self)];
     req_headers := Some [("Content-Type", [Lit "application/json"])];
     req_json := Some body;
     req_timeout := 30 |}.

Definition get_response_try (w : world) (self : agent) (message : string)
    (context : option (list dict)) : result string :=
  body <- payload self message context ;;
  response <- send w (generate_request self body) ;;
  _ <- raise_for_status response ;;
  data <- json response ;;
  has_candidates <- contains "candidates" data ;;
  nonempty <- (if has_candidates
               then cands <- item data "candidates" ;; n <- len cands ;; Ok (0 <? n)%nat
               else Ok false) ;;
  if nonempty : bool
  then
    cands <- item data "candidates" ;;
    candidate <- item0 cands ;;
    has_content <- contains "content" candidate ;;
    has_parts <- (if has_content
                  then content <- item candidate "content" ;; contains "parts" content
                  else Ok false) ;;
    if has_parts : bool
    then
      content <- item candidate "content" ;;
      parts <- item content "parts" ;;
      first <- item0 parts ;;
      text <- item first "text" ;;
      _ <- log_interaction self message text (elapsed_ms w) ;;
      method_strip text
    else raise PlainException "Estructura de respuesta inválida de Gemini"
  else raise PlainException "Respuesta inválida de Gemini".

Definition get_response (w : world) (self : agent) (message : string)
    (context : option (list dict)) : string :=
  match get_response_try w self message context with
  | Ok reply => reply
  | Raise e =>
      if isinstance_RequestException e
      then "Error: " ++ ("Error de conexión con Gemini: " ++ exn_str e)
      else "Error: " ++ ("Error procesando respuesta de Gemini: " ++ exn_str e)
  end.

Definition fallback_models : list value :=
  [VStr "gemini-1.5-pro"; VStr "gemini-1.5-flash"; VStr "gemini-pro"].

Definition models_request (self : agent) : request :=
  {| req_method := GET;
     req_url := [Fmt (base_url self); Lit "/models?key="; Fmt (api_key self)];
     req_headers := None;
     req_json := None;
     req_timeout := 10 |}.

(** The loop over [data['models']]: the name is cut first, then the entry is
    kept when it lists ['generateContent']. *)
Fixpoint generation_models (entries : list value) : result (list value) :=
  match entries with
  | [] => Ok []
  | model :: rest =>
      raw <- method_get model "name" (VStr "") ;;
      model_name <- method_replace raw "models/" "" ;;
      methods <- method_get model "supportedGenerationMethods" (VList []) ;;
      keep <- contains "generateContent" methods ;;
      r <- generation_models rest ;;
      Ok (if keep : bool then model_name :: r else r)
  end.

Definition get_available_models_try (w : world) (self : agent) : result (list value) :=
  response <- send w (models_request self) ;;
  if (status_code response =? 200)%Z
  then
    data <- json response ;;
    has_models <- contains "models" data ;;
    if has_models : bool
    then
      listing <- item data "models" ;;
      entries <- iterate listing ;;
      models <- generation_models entries ;;
      sorted models
    else Ok fallback_models
  else Ok fallback_models.

Definition get_available_models (w : world) (self : agent) : list value :=
  match get_available_models_try w self with
  | Ok models => models
  | Raise _ => fallback_models
  end.

Definition costs : list (string * (Q * Q)) :=
  [("gemini-1.5-pro", (0.0035, 0.0105));
   ("gemini-1.5-flash", (0.000075, 0.0003));
   ("gemini-pro", (0.0005, 0.0015))]%Q.

Definition estimate_cost (self : agent) (message response : string) : result Q :=
  let input_chars := String.length message in
  let output_chars := String.length response in
  let input_tokens := (input_chars / 4)%nat in
  let output_tokens := (output_chars / 4)%nat in
  model_costs <- table_get costs (model_name self) (0.000075, 0.0003)%Q ;;
  let input_cost := ((inject_Z (Z.of_nat input_tokens) / 1000) * fst model_costs)%Q in
  let output_cost := ((inject_Z (Z.of_nat output_tokens) / 1000) * snd model_costs)%Q in
  Ok (input_cost + output_cost)%Q.


Definition test_request (self : agent) : request :=
  {| req_method := POST;
     req_url := [Fmt (base_url self); Lit "/models/"; Fmt (model_name self);
                 Lit ":generateContent?key="; Fmt (api_key self)];
     req_headers := Some [("Content-Type", [Lit "application/json"])];
     req_json :=
       Some (display
               [("contents",
                 VList [VDict (display [("role", VStr "user");
                                        ("parts",
                                         VList [VDict (display [("text", VStr "Test")])])])]);
                ("generationConfig", VDict (display [("maxOutputTokens", VInt 10)]))]);
     req_timeout := 10 |}.

(** The body of the [try] in [test_connection]. *)
Definition test_connection_try (w : world) (self : agent) : result dict :=
  response <- send w (test_request self) ;;
  if (status_code response =? 200)%Z
  then Ok (display [("success", VBool true);
                    ("message", VStr "Conexión exitosa con Gemini");
                    ("status_code", VInt (status_code response))])
  else Ok (display [("success", VBool false);
                    ("error", VStr ("Error HTTP " ++ str_of_int (status_code response)));
                    ("message", VStr (text response))]).

Definition test_connection (w : world) (self : agent) : dict :=
  match test_connection_try w self with
  | Ok r => r
  | Raise e =>
      display [("success", VBool false);
               ("error", VStr (exn_str e));
               ("message", VStr "No se pudo conectar con Gemini")]
  end.

End GeminiAgent.

(** ** agents/ollama_agent.py *)

Module OllamaAgent.

Definition init (config : dict) : agent :=
  let self := BaseAgent.init config in
  {| cls := ClsOllama;
     self_base := self;
     base_url := or_else (api_url self) (VStr "http://localhost:11434");
     headers := None |}.

Section Rendering.

(** The text Python gives an interpolated object that is not a [str]. *)
Variable render : value -> string.

(** One line per turn: ["Usuario: "] for the role ['user'], ["Asistente: "]
    for every other role. *)
Fixpoint context_lines (turns : list dict) : result (list string) :=
  match turns with
  | [] => Ok []
  | msg :: rest =>
      c <- item (VDict msg) "content" ;;
      let line := (if eq_str (get msg "role") "user"
                   then "Usuario: " ++ format render c
                   else "Asistente: " ++ format render c)%string in
      r <- context_lines rest ;;
      Ok (line :: r)
  end.

Definition prompt (message : string) (context : option (list dict)) : result string :=
  match turns_of context with
  | [] => Ok message
  | turns =>
      lines <- context_lines turns ;;
      let context_text := String.concat newline lines in
      Ok (context_text ++ newline ++ "Usuario: " ++ message ++ newline
            ++ "Asistente:")%string
  end.

Definition payload (self : agent) (message : string) (context : option (list dict))
    : result dict :=
  p <- prompt message context ;;
  extra <- mapping (default_params self) ;;
  Ok (display
        [("model", model_name self);
         ("prompt", VStr p);
         ("stream", VBool false);
         ("options",
          VDict (update
                   (display [("temperature", temperature self);
                             ("num_predict", max_tokens self)])
                   extra))]).

Definition generate_request (self : agent) (body : dict) : request :=
  {| req_method := POST;
     req_url := [Fmt (base_url self); Lit "/api/generate"];
     req_headers := None;
     req_json := Some body;
     req_timeout := 60 |}.

Definition get_response_try (w : world) (self : agent) (message : string)
    (context : option (list dict)) : result string :=
  body <- payload self message context ;;
  response <- send w (generate_request self body) ;;
  _ <- raise_for_status response ;;
  data <- json response ;;
  has_response <- contains "response" data ;;
  if has_response : bool
  then
    text <- item data "response" ;;
    _ <- log_interaction self message text (elapsed_ms w) ;;
    method_strip text
  else raise PlainException "Respuesta inválida de Ollama".

Definition not_running : string :=
  "Error: Ollama no está ejecutándose. Inicia Ollama con 'ollama serve'".

Definition get_response (w : world) (self : agent) (message : string)
    (context : option (list dict)) : string :=
  match get_response_try w self message context with
  | Ok reply => reply
  | Raise e =>
      if isinstance_ConnectionError e
      then not_running
      else if isinstance_RequestException e
      then "Error: " ++ ("Error de conexión con Ollama: " ++ exn_str e)
      else "Error: " ++ ("Error procesando respuesta de Ollama: " ++ exn_str e)
  end.

End Rendering.

Definition fallback_models : list value :=
  [VStr "llama3.1"; VStr "codestral"; VStr "mistral"; VStr "phi3"; VStr "qwen2.5"].

Definition tags_request (self : agent) : request :=
  {| req_method := GET;
     req_url := [Fmt (base_url self); Lit "/api/tags"];
     req_headers := None;
     req_json := None;
     req_timeout := 10 |}.

Definition get_available_models_try (w : world) (self : agent) : result (list value) :=
  response <- send w (tags_request self) ;;
  if (status_code response =? 200)%Z
  then
    data <- json response ;;
    listing <- method_get data "models" (VList []) ;;
    entries <- iterate listing ;;
    models <- for_each (fun model => item model "name") entries ;;
    sorted models
  else Ok fallback_models.

Definition get_available_models (w : world) (self : agent) : list value :=
  match get_available_models_try w self with
  | Ok models => models
  | Raise _ => fallback_models
  end.

(** Local inference is free. *)
Definition estimate_cost (self : agent) (message response : string) : result Q :=
  Ok 0%Q.


(** The probe of [test_connection]: the listing, with a shorter timeout. *)
Definition probe_request (self : agent) : request :=
  {| req_method := GET;
     req_url := [Fmt (base_url self); Lit "/api/tags"];
     req_headers := None;
     req_json := None;
     req_timeout := 5 |}.

Section Probing.

Variable render : value -> string.

Definition test_connection_try (w : world) (self : agent) : result dict :=
  response <- send w (probe_request self) ;;
  if (status_code response =? 200)%Z
  then
    data <- json response ;;
    listing <- method_get data "models" (VList []) ;;
    entries <- iterate listing ;;
    models <- for_each (fun model => item model "name") entries ;;
    if member (model_name self) models
    then Ok (display
               [("success", VBool true);
                ("message",
                 VStr ("Conexión exitosa con Ollama. Modelo "
                         ++ format render (model_name self) ++ " disponible"));
                ("available_models", VList models)])
    else
      listed <- join ", " models ;;
      Ok (display
            [("success", VBool false);
             ("error",
              VStr ("Modelo " ++ format render (model_name self) ++ " no encontrado"));
             ("message", VStr ("Modelos disponibles: " ++ listed));
             ("available_models", VList models)])
  else Ok (display [("success", VBool false);
                    ("error", VStr ("Error HTTP " ++ str_of_int (status_code response)));
                    ("message", VStr "Ollama responde pero hay un error")]).

Definition test_connection (w : world) (self : agent) : dict :=
  match test_connection_try w self with
  | Ok r => r
  | Raise e =>
      if isinstance_ConnectionError e
      then display [("success", VBool false);
                    ("error", VStr "Ollama no está ejecutándose");
                    ("message", VStr "Ejecuta 'ollama serve' para iniciar Ollama")]
      else display [("success", VBool false);
                    ("error", VStr (exn_str e));
                    ("message", VStr "No se pudo conectar con Ollama")]
  end.

(** [get_model_info(model_name=None)]: [model_name or self.model_name]. *)
Definition show_request (self : agent) (model : value) : request :=
  {| req_method := POST;
     req_url := [Fmt (base_url self); Lit "/api/show"];
     req_headers := None;
     req_json := Some (display [("name", model)]);
     req_timeout := 10 |}.

Definition get_model_info_try (w : world) (self : agent) (model_name : value)
    : result value :=
  let model := or_else model_name (BaseAgent.model_name self) in
  response <- send w (show_request self model) ;;
  if (status_code response =? 200)%Z
  then json response
  else Ok (VDict (display
                    [("error",
                      VStr ("Modelo " ++ format render model ++ " no encontrado"))])).

Definition get_model_info (w : world) (self : agent) (model_name : value) : value :=
  match get_model_info_try w self model_name with
  | Ok r => r
  | Raise e => VDict (display [("error", VStr (exn_str e))])
  end.

End Probing.

Definition pull_request (self : agent) (model_name : string) : request :=
  {| req_method := POST;
     req_url := [Fmt (base_url self); Lit "/api/pull"];
     req_headers := None;
     req_json := Some (display [("name", VStr model_name)]);
     req_timeout := 300 |}.

Definition pull_model_try (w : world) (self : agent) (model_name : string)
    : result dict :=
  response <- send w (pull_request self model_name) ;;
  if (status_code response =? 200)%Z
  then Ok (display
             [("success", VBool true);
              ("message", VStr ("Modelo " ++ model_name ++ " descargado exitosamente"))])
  else Ok (display
             [("success", VBool false);
              ("error", VStr ("Error descargando modelo: " ++ text response))]).

Definition pull_model (w : world) (self : agent) (model_name : string) : dict :=
  match pull_model_try w self model_name with
  | Ok r => r
  | Raise e =>
      display [("success", VBool false);
               ("error", VStr (exn_str e));
               ("message", VStr ("No se pudo descargar el modelo " ++ model_name))]
  end.

End OllamaAgent.

(** ** Method dispatch

    A call [agent.method(...)] runs the method of the instance's class. *)

Module Agent.

Definition get_response (render : value -> string) (w : world) (self : agent)
    (message : string) (context : option (list dict)) : string :=
  match cls self with
  | ClsOpenAI => OpenAIAgent.get_response w self message context
  | ClsClaude => ClaudeAgent.get_response w self message context
  | ClsGemini => GeminiAgent.get_response w self message context
  | ClsOllama => OllamaAgent.get_response render w self message context
  | ClsGroq => GroqAgent.get_response w self message context
  end.

Definition get_available_models (w : world) (self : agent) : list value :=
  match cls self with
  | ClsOpenAI => OpenAIAgent.get_available_models w self
  | ClsClaude => ClaudeAgent.get_available_models self
  | ClsGemini => GeminiAgent.get_available_models w self
  | ClsOllama => OllamaAgent.get_available_models w self
  | ClsGroq => GroqAgent.get_available_models w self
  end.

Definition estimate_cost (self : agent) (message response : string) : result Q :=
  match cls self with
  | ClsOpenAI => OpenAIAgent.estimate_cost self message response
  | ClsClaude => ClaudeAgent.estimate_cost self message response
  | ClsGemini => GeminiAgent.estimate_cost self message response
  | ClsOllama => OllamaAgent.estimate_cost self message response
  | ClsGroq => GroqAgent.estimate_cost self message response
  end.

(** [agent_class(config)] *)
Definition construct (c : agent_class) (config : dict) : agent :=
  match c with
  | ClsOpenAI => OpenAIAgent.init config
  | ClsClaude => ClaudeAgent.init config
  | ClsGemini => GeminiAgent.init config
  | ClsOllama => OllamaAgent.init config
  | ClsGroq => GroqAgent.init config
  end.


Definition test_connection (render : value -> string) (w : world) (self : agent)
    : dict :=
  match cls self with
  | ClsOpenAI => OpenAIAgent.test_connection w self
  | ClsClaude => ClaudeAgent.test_connection w self
  | ClsGemini => GeminiAgent.test_connection w self
  | ClsOllama => OllamaAgent.test_connection render w self
  | ClsGroq => GroqAgent.test_connection w self
  end.

(** The request body each class builds for a chat call. *)
Definition payload (render : value -> string) (self : agent) (message : string)
    (context : option (list dict)) : result dict :=
  match cls self with
  | ClsOpenAI => OpenAIAgent.payload self message context
  | ClsClaude => ClaudeAgent.payload self message context
  | ClsGemini => GeminiAgent.payload self message context
  | ClsOllama => OllamaAgent.payload render self message context
  | ClsGroq => GroqAgent.payload self message context
  end.

End Agent.

(** ** agents/agent_factory.py *)

Module AgentFactory.

Definition AGENT_CLASSES : list (string * agent_class) :=
  [("openai", ClsOpenAI);
   ("anthropic", ClsClaude);
   ("google", ClsGemini);
   ("ollama", ClsOllama);
   ("groq", ClsGroq)].

(** [AGENT_CLASSES.get(key)] and [provider_requirements.get(key, [])] *)
Fixpoint registry_get {A : Type} (table : list (string * A)) (key : string) : option A :=
  match table with
  | [] => None
  | (k, x) :: rest => if String.eqb key k then Some x else registry_get rest key
  end.

Definition required_fields : list string := ["name"; "model_name"].

Definition provider_requirements : list (string * list string) :=
  [("openai", ["api_key"]);
   ("anthropic", ["api_key"]);
   ("google", ["api_key"]);
   ("groq", ["api_key"]);
   ("ollama", [])].

Definition _validate_config (provider : string) (config : dict)
    (validate_api_key : bool) : bool :=
  if negb (all_present config required_fields) then false
  else if validate_api_key
  then
    let provider_fields :=
      match registry_get provider_requirements (lower provider) with
      | Some fields => fields
      | None => []
      end in
    if negb (all_present config provider_fields) then false else true
  else true.

(** The body of the [try] in [create_agent]. *)
Definition create_agent_try (provider : string) (config : dict)
    (validate_api_key : bool) : result (option agent) :=
  match registry_get AGENT_CLASSES (lower provider) with
  | None => Ok None
  | Some agent_class =>
      if (negb (_validate_config provider config validate_api_key)
          && validate_api_key)%bool
      then Ok None
      else
        let agent := Agent.construct agent_class config in
        if (validate_api_key && negb (validate_config agent))%bool
        then Ok None
        else Ok (Some agent)
  end.

Definition create_agent (provider : string) (config : dict)
    (validate_api_key : bool) : option agent :=
  match create_agent_try provider config validate_api_key with
  | Ok r => r
  | Raise _ => None
  end.

Definition get_supported_providers : list string := map fst AGENT_CLASSES.


(** The body of the [try] in [test_agent_connection]: [create_agent] with its
    default [validate_api_key=True], then the instance's probe. *)
Definition test_agent_connection_try (render : value -> string) (w : world)
    (provider : string) (config : dict) : result dict :=
  match create_agent provider config true with
  | None =>
      Ok (display [("success", VBool false);
                   ("error", VStr "No se pudo crear el agente");
                   ("provider", VStr provider)])
  | Some agent => Ok (Agent.test_connection render w agent)
  end.

Definition test_agent_connection (render : value -> string) (w : world)
    (provider : string) (config : dict) : dict :=
  match test_agent_connection_try render w provider config with
  | Ok r => r
  | Raise e =>
      display [("success", VBool false);
               ("error", VStr (exn_str e));
               ("provider", VStr provider)]
  end.

End AgentFactory.

(** ** AgentManager (agents/agent_factory.py) *)

Module AgentManager.

Record manager : Type := MkManager {
  active_agents : gmap string agent;
  default_agent : option string
}.

Definition init : manager :=
  {| active_agents := ∅; default_agent := None |}.

Definition add_agent (agent_id : string) (a : agent) (self : manager) : manager :=
  {| active_agents := <[agent_id := a]> (active_agents self);
     default_agent := default_agent self |}.

Definition get_agent (agent_id : string) (self : manager) : option agent :=
  active_agents self !! agent_id.

Definition remove_agent (agent_id : string) (self : manager) : manager :=
  match active_agents self !! agent_id with
  | Some _ =>
      {| active_agents := delete agent_id (active_agents self);
         default_agent := default_agent self |}
  | None => self
  end.

Definition set_default_agent (agent_id : string) (self : manager) : manager :=
  match active_agents self !! agent_id with
  | Some _ =>
      {| active_agents := active_agents self; default_agent := Some agent_id |}
  | None => self
  end.

(** [if self.default_agent and self.default_agent in self.active_agents]:
    the first test fails for [None] and for the empty string. *)
Definition get_default_agent (self : manager) : option agent :=
  match default_agent self with
  | Some agent_id =>
      if negb (String.eqb agent_id "") then active_agents self !! agent_id
      else None
  | None => None
  end.

Definition list_agents (self : manager) : gmap string dict :=
  (fun a : agent => get_info a) <$> active_agents self.

Definition clear_agents (self : manager) : manager :=
  {| active_agents := ∅; default_agent := None |}.

(** The calls a client of the manager can make that change it. *)
Inductive op : Type :=
| AddAgent (agent_id : string) (a : agent)
| RemoveAgent (agent_id : string)
| SetDefaultAgent (agent_id : string)
| ClearAgents.

Definition step (self : manager) (o : op) : manager :=
  match o with
  | AddAgent agent_id a => add_agent agent_id a self
  | RemoveAgent agent_id => remove_agent agent_id self
  | SetDefaultAgent agent_id => set_default_agent agent_id self
  | ClearAgents => clear_agents self
  end.

Definition run (ops : list op) (self : manager) : manager :=
  fold_left step ops self.

End AgentManager.

(** * Vocabulary of the statements *)

(** A field of a config is non-empty: it is there and Python counts its
    value as true (for a [str]: it is not the empty string). *)
Definition non_empty (config : dict) (field : string) : Prop :=
  exists v, lookup_key field config = Some v /\ truthy v = true.

(** The provider of a config is the local one. *)
Definition local_provider (config : dict) : Prop :=
  lookup_key "provider" config = Some (VStr "ollama").

(** The providers of the registry, the local one left out. *)
Definition hosted_provider (provider : string) : Prop :=
  In (lower provider) AgentFactory.get_supported_providers /\
  lower provider <> "ollama".

(** *** Replies *)

(** Where a reply carries its text, by provider (the "response extraction"
    column of the protocol table): a path of object fields and first array
    elements that ends in a string. *)
Inductive step : Type :=
| Field (k : string)
| First.

Definition field (k : string) (v : value) : option value :=
  match v with
  | VDict d => lookup_key k d
  | _ => None
  end.

Definition head_of (v : value) : option value :=
  match v with
  | VList (x :: _) => Some x
  | _ => None
  end.

Definition text_of (v : value) : option string :=
  match v with
  | VStr s => Some s
  | _ => None
  end.

Fixpoint follow (path : list step) (v : value) : option value :=
  match path with
  | [] => Some v
  | Field k :: rest =>
      match field k v with Some x => follow rest x | None => None end
  | First :: rest =>
      match head_of v with Some x => follow rest x | None => None end
  end.

Definition text_path (c : agent_class) : list step :=
  match c with
  | ClsOpenAI | ClsGroq => [Field "choices"; First; Field "message"; Field "content"]
  | ClsClaude => [Field "content"; First; Field "text"]
  | ClsGemini =>
      [Field "candidates"; First; Field "content"; Field "parts"; First; Field "text"]
  | ClsOllama => [Field "response"]
  end.

Definition reply_text (c : agent_class) (data : value) : option string :=
  match follow (text_path c) data with
  | Some v => text_of v
  | None => None
  end.

(** The failure cases of a chat request: the request raises (unreachable
    host, timeout); the status is 4xx or 5xx; the body is not JSON; the JSON
    does not carry the text where the provider puts it. *)
Definition failure (c : agent_class) (outcome : result response) : Prop :=
  match outcome with
  | Raise _ => True
  | Ok r =>
      (400 <= status_code r < 600)%Z \/
      match json r with
      | Raise _ => True
      | Ok data => reply_text c data = None
      end
  end.

(** The listing call fails: it raises, or the status is not 200. *)
Definition listing_fails (w : world) : Prop :=
  forall req,
    match send w req with
    | Raise _ => True
    | Ok r => status_code r <> 200%Z
    end.

(** A model identifier: a string. *)
Definition identifier (v : value) : Prop := exists s, v = VStr s.

(** The list a class falls back on (for Claude: the only list it has). *)
Definition fixed_models (c : agent_class) : list value :=
  match c with
  | ClsOpenAI => OpenAIAgent.fallback_models
  | ClsClaude => ClaudeAgent.known_models
  | ClsGemini => GeminiAgent.fallback_models
  | ClsOllama => OllamaAgent.fallback_models
  | ClsGroq => GroqAgent.fallback_models
  end.

(** The generic message of the Ollama client's [RequestException] handler. *)
Definition ollama_connection_error (e : exn) : string :=
  "Error: " ++ ("Error de conexión con Ollama: " ++ exn_str e).

(** *** Context turns *)

Definition has_content (msg : dict) : Prop :=
  exists c, lookup_key "content" msg = Some c.

(** Ollama: the line of a turn, and the prompt for a context of at least one
    turn. *)
Definition flattened_line (render : value -> string) (msg : dict) : string :=
  (if eq_str (get msg "role") "user" then "Usuario: " else "Asistente: ")
    ++ format render (get msg "content").

Definition flattened (render : value -> string) (message : string)
    (turns : list dict) : string :=
  String.concat newline (map (flattened_line render) turns)
    ++ newline ++ "Usuario: " ++ message ++ newline ++ "Asistente:".

(** Claude: the roles that are forwarded, and what is sent for such a turn
    (its role and its content). *)
Definition forwarded_role (msg : dict) : bool :=
  (eq_str (get msg "role") "user" || eq_str (get msg "role") "assistant")%bool.

Definition forward (msg : dict) : value :=
  turn (if eq_str (get msg "role") "user" then "user" else "assistant")
    (get msg "content").

(** *** Costs *)

(** The estimate for given rates and token counts. *)
Definition cost_of (rates : Q * Q) (input_tokens output_tokens : nat) : Q :=
  ((inject_Z (Z.of_nat input_tokens) / 1000) * fst rates
   + (inject_Z (Z.of_nat output_tokens) / 1000) * snd rates)%Q.

Definition rates_ok (rates : Q * Q) : Prop :=
  (0 <= fst rates)%Q /\ (0 <= snd rates)%Q.

(** Monotonicity in [len(message) + len(response)], as the spec words it: a
    pair with larger combined length never costs less. *)
Definition monotone_in_total_length (self : agent) : Prop :=
  forall m1 r1 m2 r2 c1 c2,
    (String.length m1 + String.length r1 <= String.length m2 + String.length r2)%nat ->
    Agent.estimate_cost self m1 r1 = Ok c1 ->
    Agent.estimate_cost self m2 r2 = Ok c2 ->
    (c1 <= c2)%Q.

(** *** Concrete inputs *)

(** The configs of the spec's scenarios 1 to 3. *)
Definition scenario1 : dict :=
  [("name", VStr "t"); ("provider", VStr "openai");
   ("model_name", VStr "gpt-4o-mini"); ("api_key", VStr "x")].

Definition scenario2 : dict :=
  [("name", VStr "t"); ("provider", VStr "ollama"); ("model_name", VStr "llama3.1")].

Definition scenario3 : dict :=
  [("name", VStr "t"); ("provider", VStr "anthropic");
   ("model_name", VStr "claude-3-haiku-20240307")].

Definition gpt4o : dict :=
  [("name", VStr "t"); ("provider", VStr "openai");
   ("model_name", VStr "gpt-4o"); ("api_key", VStr "x")].

Definition gemini_flash : dict :=
  [("name", VStr "t"); ("provider", VStr "google");
   ("model_name", VStr "gemini-1.5-flash"); ("api_key", VStr "x")].

(** Scenario 5: a Groq model the rate table does not know. *)
Definition scenario5 : dict :=
  [("name", VStr "t"); ("provider", VStr "groq");
   ("model_name", VStr "llama-9"); ("api_key", VStr "x")].

Definition hola_context : list dict :=
  [[("role", VStr "user"); ("content", VStr "hola")];
   [("role", VStr "assistant"); ("content", VStr "buenas")]].

Definition mixed_context : list dict :=
  [[("role", VStr "system"); ("content", VStr "eres un asistente")];
   [("role", VStr "user"); ("content", VStr "hola")];
   [("role", VStr "tool")];
   [("role", VStr "assistant"); ("content", VStr "buenas")]].

Definition no_render (v : value) : string := "".

(** A machine on which nothing listens: every request is refused. *)
Definition offline : world :=
  {| send := fun _ => raise ReqConnectionError "Connection refused";
     elapsed_ms := 0 |}.

(** A service that answers every request with status 200 and the JSON
    [data]. *)
Definition answering (data : value) : world :=
  {| send := fun _ =>
       Ok {| status_code := 200; json := Ok data; text := ""; http_error := "" |};
     elapsed_ms := 12 |}.

(** An Ollama service that runs and has no model pulled: [GET /api/tags]
    answers with an empty listing. *)
Definition no_models_pulled : world :=
  answering (VDict [("models", VList [])]).

(** Well-formed replies that say [" hola "]. *)
Definition openai_hola : value :=
  VDict [("choices",
          VList [VDict [("message", VDict [("role", VStr "assistant");
                                           ("content", VStr " hola ")])]])].

Definition claude_hola : value :=
  VDict [("content", VList [VDict [("type", VStr "text"); ("text", VStr " hola ")]])].

Definition gemini_hola : value :=
  VDict [("candidates",
          VList [VDict [("content",
                         VDict [("parts", VList [VDict [("text", VStr " hola ")]])])]])].

Definition ollama_hola : value :=
  VDict [("model", VStr "llama3.1"); ("response", VStr " hola ")].

Definition logger_type_error : string :=
  "Logger.log_chat_interaction() got an unexpected keyword argument 'message'".

(** *** Messages of the handlers *)

Definition provider_label (c : agent_class) : string :=
  match c with
  | ClsOpenAI => "OpenAI"
  | ClsClaude => "Claude"
  | ClsGemini => "Gemini"
  | ClsOllama => "Ollama"
  | ClsGroq => "Groq"
  end.

(** What the [RequestException] handler and the [Exception] handler of a
    class return for an exception whose text is [detail]. *)
Definition connection_error (c : agent_class) (detail : string) : string :=
  "Error: Error de conexión con " ++ provider_label c ++ ": " ++ detail.

Definition processing_error (c : agent_class) (detail : string) : string :=
  "Error: Error procesando respuesta de " ++ provider_label c ++ ": " ++ detail.

(** Gemini: what is sent for a turn. *)
Definition gemini_content (msg : dict) : value :=
  GeminiAgent.content_of (if eq_str (get msg "role") "user" then "user" else "model")
    (get msg "content").

(** The turns whose content a class reads: Claude skips the turns it drops. *)
Definition reads_content (c : agent_class) (msg : dict) : bool :=
  match c with
  | ClsClaude => forwarded_role msg
  | ClsGemini | ClsOllama => true
  | ClsOpenAI | ClsGroq => false
  end.

(** The keys of the request body that [default_params] can set: for OpenAI,
    Groq and Claude it is merged into the body itself, for Gemini and Ollama
    into an inner object. *)
Definition merged_at_top (c : agent_class) : bool :=
  match c with
  | ClsOpenAI | ClsGroq | ClsClaude => true
  | ClsGemini | ClsOllama => false
  end.

Definition inner_key (c : agent_class) : string :=
  match c with
  | ClsGemini => "generationConfig"
  | _ => "options"
  end.

Definition top_keys (c : agent_class) : list string :=
  match c with
  | ClsGemini => ["contents"; inner_key ClsGemini]
  | _ => ["model"; "prompt"; "stream"; inner_key ClsOllama]
  end.

(** A service that answers every request with the status [code] and no
    JSON. *)
Definition refusing (code : Z) (reason : string) : world :=
  {| send := fun _ =>
       Ok {| status_code := code;
             json := raise ReqInvalidJSON "Expecting value: line 1 column 1 (char 0)";
             text := reason;
             http_error := reason |};
     elapsed_ms := 3 |}.

(** A config as [chat_interface.py] builds it from a row whose
    [default_params] column is NULL. *)
Definition null_params : dict :=
  [("name", VStr "t"); ("provider", VStr "openai"); ("model_name", VStr "gpt-4o");
   ("api_key", VStr "x"); ("api_url", VNone); ("max_tokens", VInt 2048);
   ("temperature", VFloat (7 # 10)); ("default_params", VNone)].

Definition tuned : dict :=
  [("name", VStr "t"); ("provider", VStr "openai"); ("model_name", VStr "gpt-4o");
   ("api_key", VStr "x");
   ("default_params", VDict [("temperature", VInt 0); ("top_p", VFloat (1 # 2))])].

(** A Claude config whose [default_params] brings a [messages] entry. *)
Definition own_messages : dict :=
  [("name", VStr "t"); ("provider", VStr "anthropic");
   ("model_name", VStr "claude-3-haiku-20240307"); ("api_key", VStr "x");
   ("default_params", VDict [("messages", VList [])])].

Definition tuned_ollama : dict :=
  [("name", VStr "t"); ("provider", VStr "ollama"); ("model_name", VStr "llama3.1");
   ("default_params", VDict [("prompt", VStr "otro"); ("top_k", VInt 40)])].

Definition broken_context : list dict :=
  [[("role", VStr "user"); ("content", VStr "hola")];
   [("role", VStr "assistant"); ("text", VStr "buenas")]].

(** *** The factory *)

(** What the factory's table asks of a provider besides the base fields. *)
Definition requirement (provider : string) : list string :=
  match AgentFactory.registry_get AgentFactory.provider_requirements provider with
  | Some fields => fields
  | None => []
  end.

(** The conditions under which [create_agent] with validation returns an
    instance. *)
Definition creatable (provider : string) (config : dict) : Prop :=
  In (lower provider) AgentFactory.get_supported_providers /\
  non_empty config "name" /\ non_empty config "provider" /\
  non_empty config "model_name" /\
  (non_empty config "api_key" \/ (lower provider = "ollama" /\ local_provider config)).

Definition not_created (provider : string) : dict :=
  display [("success", VBool false);
           ("error", VStr "No se pudo crear el agente");
           ("provider", VStr provider)].

(** The request [test_connection] sends, by class. *)
Definition probe (self : agent) : request :=
  match cls self with
  | ClsOpenAI => OpenAIAgent.models_request self
  | ClsClaude => ClaudeAgent.test_request self
  | ClsGemini => GeminiAgent.test_request self
  | ClsOllama => OllamaAgent.probe_request self
  | ClsGroq => GroqAgent.models_request self
  end.

(** A listing entry [{"name": n, ...}] (Ollama) or [{"id": n, ...}]. *)
Definition named (key : string) (entry : value) (n : string) : Prop :=
  field key entry = Some (VStr n).

(** An Ollama service that lists two pulled models. *)
Definition two_models : world :=
  answering
    (VDict [("models",
             VList [VDict [("name", VStr "mistral:latest"); ("size", VInt 4109865159)];
                    VDict [("name", VStr "llama3.1:8b")]])]).

Definition llama_8b : dict :=
  [("name", VStr "t"); ("provider", VStr "ollama"); ("model_name", VStr "llama3.1:8b")].

(** *** Listings *)

(** The order of [sorted] on strings. *)
Definition str_le (a b : string) : Prop := String.leb a b = true.

(** The ids the OpenAI client keeps. *)
Definition chat_model (id : string) : bool :=
  (is_substring "gpt-4" id || is_substring "gpt-3.5" id)%bool.

(** A Gemini listing entry with the name [fst nm] and the supported
    generation methods [snd nm]. *)
Definition gemini_entry (entry : value) (nm : string * list string) : Prop :=
  exists e,
    entry = VDict e /\
    lookup_key "name" e = Some (VStr (fst nm)) /\
    lookup_key "supportedGenerationMethods" e = Some (VList (map VStr (snd nm))).

Definition generates (nm : string * list string) : bool :=
  existsb (fun method => String.eqb method "generateContent") (snd nm).

Definition gemini_names (listing : list (string * list string)) : list string :=
  map (fun nm => str_replace "models/" "" (fst nm)) (List.filter generates listing).

(** The key under which a class looks for the listing. *)
Definition listing_key (c : agent_class) : string :=
  match c with
  | ClsOpenAI | ClsGroq => "data"
  | _ => "models"
  end.

(** Worlds for the listings. *)
Definition openai_catalog : world :=
  answering
    (VDict [("object", VStr "list");
            ("data",
             VList [VDict [("id", VStr "gpt-4o"); ("object", VStr "model")];
                    VDict [("id", VStr "whisper-1")];
                    VDict [("id", VStr "gpt-3.5-turbo")];
                    VDict [("id", VStr "dall-e-3")]])]).

Definition gemini_catalog : world :=
  answering
    (VDict [("models",
             VList [VDict [("name", VStr "models/gemini-pro");
                           ("supportedGenerationMethods",
                            VList [VStr "generateContent"; VStr "countTokens"])];
                    VDict [("name", VStr "models/embedding-001");
                           ("supportedGenerationMethods", VList [VStr "embedContent"])];
                    VDict [("name", VStr "models/gemini-1.5-flash");
                           ("supportedGenerationMethods",
                            VList [VStr "generateContent"])]])]).

(** A manager with one agent, registered under ["a"] and set as default. *)
Definition one_default : AgentManager.manager :=
  AgentManager.set_default_agent "a"
    (AgentManager.add_agent "a" (OpenAIAgent.init scenario1) AgentManager.init).

(** *** Rate tables *)

Definition costs_of (c : agent_class) : list (string * (Q * Q)) :=
  match c with
  | ClsOpenAI => OpenAIAgent.costs
  | ClsClaude => ClaudeAgent.costs
  | ClsGemini => GeminiAgent.costs
  | ClsGroq => GroqAgent.costs
  | ClsOllama => []
  end.

(** The model whose rates a class uses for a model it does not know. *)
Definition default_model (c : agent_class) : string :=
  match c with
  | ClsOpenAI => "gpt-4o-mini"
  | ClsClaude => "claude-3-5-sonnet-20241022"
  | ClsGemini => "gemini-1.5-flash"
  | ClsGroq => "llama-3.1-70b-versatile"
  | ClsOllama => ""
  end.

Definition rates_of (c : agent_class) (model : string) : Q * Q :=
  match find (fun kv => String.eqb model (fst kv)) (costs_of c) with
  | Some kv => snd kv
  | None => (0, 0)%Q
  end.

(** A 200 reply whose body is not JSON, as a proxy's HTML page. *)
Definition html_page : world :=
  {| send := fun _ =>
       Ok {| status_code := 200;
             json := raise ReqInvalidJSON "Expecting value: line 1 column 1 (char 0)";
             text := "<html>";
             http_error := "" |};
     elapsed_ms := 3 |}.

(** * Properties *)

(** ** The scenarios of the spec, evaluated *)

Example scenario1_configured :
  validate_config (OpenAIAgent.init scenario1) = true /\
  lookup_key "status" (get_info (OpenAIAgent.init scenario1)) = Some (VStr "configured").
Proof. split; reflexivity. Qed.

Example scenario2_valid : validate_config (OllamaAgent.init scenario2) = true.
Proof. reflexivity. Qed.

Example scenario3_refused : AgentFactory.create_agent "anthropic" scenario3 true = None.
Proof. reflexivity. Qed.

Example scenario3_without_validation :
  AgentFactory.create_agent "Anthropic" scenario3 false
  = Some (ClaudeAgent.init scenario3).
Proof. reflexivity. Qed.

Example scenario5_default_rate :
  GroqAgent.estimate_cost (GroqAgent.init scenario5) "12345678" "1234"
  = Ok (cost_of (0.00059, 0.00079)%Q 2 1).
Proof. reflexivity. Qed.

(** ** Helper lemmas *)

Lemma truthy_str (s : string) : truthy (VStr s) = true <-> s <> "".
Proof.
  simpl. rewrite negb_true_iff. split.
  - intros H ->. discriminate.
  - intros H. destruct (String.eqb s "") eqn:E; [|reflexivity].
    apply String.eqb_eq in E. contradiction.
Qed.

Lemma non_empty_str (config : dict) (field s : string) :
  lookup_key field config = Some (VStr s) -> (non_empty config field <-> s <> "").
Proof.
  intros H. rewrite <- truthy_str. unfold non_empty. rewrite H. split.
  - intros (v & [= <-] & Hv). exact Hv.
  - intros Hv. exists (VStr s). auto.
Qed.

Lemma truthy_get (config : dict) (field : string) :
  truthy (get config field) = true <-> non_empty config field.
Proof.
  unfold get, non_empty. destruct (lookup_key field config) as [v|].
  - split; [intros H; exists v; auto | intros (w & [= <-] & H); exact H].
  - split; [discriminate | intros (w & [=] & _)].
Qed.

Lemma not_non_empty (config : dict) (field : string) :
  ~ non_empty config field -> truthy (get config field) = false.
Proof.
  intros H. destruct (truthy (get config field)) eqn:E; [|reflexivity].
  apply truthy_get in E. contradiction.
Qed.

Lemma truthy_get_or_empty (config : dict) (field : string) :
  truthy (get_or config field (VStr "")) = truthy (get config field).
Proof. unfold get_or, get. destruct (lookup_key field config); reflexivity. Qed.

Lemma eq_str_iff (v : value) (s : string) : eq_str v s = true <-> v = VStr s.
Proof.
  destruct v; simpl; try (split; [discriminate | intros [=]]).
  rewrite String.eqb_eq. split; [intros -> | intros [= ->]]; reflexivity.
Qed.

Lemma provider_is_ollama (config : dict) :
  eq_str (get_or config "provider" (VStr "")) "ollama" = true <->
  local_provider config.
Proof.
  rewrite eq_str_iff. unfold get_or, local_provider.
  destruct (lookup_key "provider" config) as [v|].
  - split; [intros -> | intros [= ->]]; reflexivity.
  - split; [intros [=] | discriminate].
Qed.

Lemma all_present_cons (config : dict) (field : string) (rest : list string) :
  all_present config (field :: rest)
  = (truthy (get config field) && all_present config rest)%bool.
Proof. simpl. destruct (truthy (get config field)); reflexivity. Qed.

Lemma construct_base (c : agent_class) (config : dict) :
  self_base (Agent.construct c config) = BaseAgent.init config.
Proof. destruct c; reflexivity. Qed.

Lemma construct_cls (c : agent_class) (config : dict) :
  cls (Agent.construct c config) = c.
Proof. destruct c; reflexivity. Qed.

Lemma item_content (msg : dict) :
  has_content msg -> item (VDict msg) "content" = Ok (get msg "content").
Proof. intros [c H]. unfold item, get. rewrite H. reflexivity. Qed.

Lemma lookup_set_item_ne (k k' : string) (v : value) (d : dict) :
  k <> k' -> lookup_key k (set_item k' v d) = lookup_key k d.
Proof.
  intros Hne. induction d as [|[k0 v0] d IH]; cbn.
  - destruct (String.eqb k k') eqn:E; [apply String.eqb_eq in E; contradiction|].
    reflexivity.
  - destruct (String.eqb k' k0) eqn:E0; cbn.
    + apply String.eqb_eq in E0. subst k0.
      destruct (String.eqb k k') eqn:E; [apply String.eqb_eq in E; contradiction|].
      reflexivity.
    + rewrite IH. reflexivity.
Qed.

Lemma lookup_update_absent (k : string) (extra d : dict) :
  lookup_key k extra = None -> lookup_key k (update d extra) = lookup_key k d.
Proof.
  unfold update. revert d. induction extra as [|[k0 v0] extra IH]; intros d H.
  - reflexivity.
  - cbn in H. destruct (String.eqb k k0) eqn:E; [discriminate|].
    cbn [fold_left fst snd]. rewrite (IH _ H). apply lookup_set_item_ne.
    intros ->. rewrite String.eqb_refl in E. discriminate.
Qed.

(** ** C2: [validate_config] *)

Lemma validate_config_init (config : dict) :
  validate_config (BaseAgent.init config) = true <->
  non_empty config "name" /\ non_empty config "provider" /\
  non_empty config "model_name" /\
  (non_empty config "api_key" \/ local_provider config).
Proof.
  unfold validate_config, required_fields.
  cbn [BaseAgent.config BaseAgent.api_key BaseAgent.provider BaseAgent.init].
  rewrite !all_present_cons, truthy_get_or_empty. cbn [all_present].
  rewrite <- !truthy_get, <- provider_is_ollama.
  destruct (truthy (get config "name")), (truthy (get config "provider")),
    (truthy (get config "model_name")), (truthy (get config "api_key")),
    (eq_str (get_or config "provider" (VStr "")) "ollama");
    cbn; intuition congruence.
Qed.

(** C2.  For a client of any of the five classes built from a config,
    [validate_config()] is true exactly when [name], [provider] and
    [model_name] are non-empty and either [api_key] is non-empty or the
    provider is ['ollama']. *)
Theorem validate_config_iff (c : agent_class) (config : dict) :
  validate_config (Agent.construct c config) = true <->
  non_empty config "name" /\ non_empty config "provider" /\
  non_empty config "model_name" /\
  (non_empty config "api_key" \/ local_provider config).
Proof. rewrite construct_base. apply validate_config_init. Qed.

(** ** C3: the factory refuses a hosted provider without an API key *)

(** C3.  For every provider of the registry other than ['ollama'] (the name
    is looked up lower-cased), [create_agent] with [validate_api_key=True] on
    a config whose [api_key] is missing or empty returns [None]: a value, not
    an exception, and not a client. *)
Theorem create_agent_without_api_key (provider : string) (config : dict) :
  hosted_provider provider ->
  ~ non_empty config "api_key" ->
  AgentFactory.create_agent provider config true = None.
Proof.
  intros [Hin Hlocal] Hkey. apply not_non_empty in Hkey.
  unfold AgentFactory.create_agent, AgentFactory.create_agent_try,
    AgentFactory._validate_config.
  cbn in Hin.
  destruct (all_present config AgentFactory.required_fields);
    destruct Hin as [H|[H|[H|[H|[H|[]]]]]]; try (symmetry in H; contradiction);
    rewrite <- H; cbn; rewrite ?Hkey; reflexivity.
Qed.

Lemma create_agent_without_api_key_witness :
  hosted_provider "anthropic" /\ ~ non_empty scenario3 "api_key" /\
  AgentFactory.create_agent "anthropic" scenario3 true = None.
Proof.
  assert (H1 : hosted_provider "anthropic").
  { split; [cbn; auto | discriminate]. }
  assert (H2 : ~ non_empty scenario3 "api_key").
  { intros (v & H & _). discriminate H. }
  exact (conj H1 (conj H2 (create_agent_without_api_key "anthropic" scenario3 H1 H2))).
Defined.

(** ** C7: [get_info] depends on the config alone *)

(** C7.  Two clients built from the same config give the same [get_info()]:
    the dictionary is computed from the attributes [BaseAgent.__init__] reads
    off the config, so it is the same for two instances of one class, and
    also across classes.  [get_info] takes no [world]: it makes no network
    call. *)
Theorem get_info_same_config (c1 c2 : agent_class) (config : dict) :
  get_info (Agent.construct c1 config) = get_info (Agent.construct c2 config).
Proof. rewrite !construct_base. reflexivity. Qed.

(** ** C8: the manager's default agent *)

Section Manager.

Import AgentManager.

Lemma get_default_agent_cases (m : manager) :
  get_default_agent m = None \/
  exists agent_id a,
    default_agent m = Some agent_id /\ get_agent agent_id m = Some a /\
    get_default_agent m = Some a.
Proof.
  unfold get_default_agent, get_agent.
  destruct (default_agent m) as [agent_id|]; [|left; reflexivity].
  destruct (negb (String.eqb agent_id "")); [|left; reflexivity].
  destruct (active_agents m !! agent_id) as [a|] eqn:E; [|left; reflexivity].
  right. exists agent_id, a. auto.
Qed.

Lemma set_default_unregistered (m : manager) (agent_id : string) :
  get_agent agent_id m = None -> set_default_agent agent_id m = m.
Proof. unfold get_agent, set_default_agent. intros ->. reflexivity. Qed.

Lemma remove_default (m : manager) (agent_id : string) :
  default_agent m = Some agent_id ->
  get_default_agent (remove_agent agent_id m) = None.
Proof.
  intros Hd. unfold remove_agent.
  destruct (active_agents m !! agent_id) as [a|] eqn:E;
    unfold get_default_agent; cbn; rewrite Hd;
    destruct (negb (String.eqb agent_id "")); try reflexivity.
  - apply lookup_delete_eq.
  - exact E.
Qed.

(** C8.  After any sequence of [add_agent], [remove_agent],
    [set_default_agent] and [clear_agents] on a new manager,
    [get_default_agent()] is [None] or the instance registered under the
    default id; [set_default_agent] on an id that is not registered leaves
    the default as it was; and removing the current default makes
    [get_default_agent()] return [None]. *)
Theorem default_agent_invariant (ops : list op) :
  let m := run ops init in
  (get_default_agent m = None \/
   exists agent_id a,
     default_agent m = Some agent_id /\ get_agent agent_id m = Some a /\
     get_default_agent m = Some a) /\
  (forall agent_id,
     get_agent agent_id m = None ->
     default_agent (set_default_agent agent_id m) = default_agent m /\
     get_default_agent (set_default_agent agent_id m) = get_default_agent m) /\
  (forall agent_id,
     default_agent m = Some agent_id ->
     get_default_agent (remove_agent agent_id m) = None).
Proof.
  intros m. split; [apply get_default_agent_cases | split].
  - intros agent_id H. rewrite (set_default_unregistered _ _ H). auto.
  - apply remove_default.
Qed.

End Manager.

(** ** C1: [get_response] returns an error string on failure *)

(** The keywords [message=], [response=] and [agent_name=] name no parameter
    of [Logger.log_chat_interaction], so the call in [log_interaction] raises
    before the logger's body runs. *)
Lemma log_interaction_raises (self : base) (message : string) (response : value)
    (response_time_ms : Z) :
  log_interaction self message response response_time_ms
  = raise TypeError logger_type_error.
Proof. reflexivity. Qed.

(** The accessors of the vocabulary against the operations of the code. *)
Lemma raise_for_status_ok (r : response) :
  ~ (400 <= status_code r < 600)%Z -> raise_for_status r = Ok tt.
Proof.
  intros H. unfold raise_for_status.
  destruct (Z.leb_spec 400 (status_code r)), (Z.ltb_spec (status_code r) 600);
    try reflexivity. lia.
Qed.

Lemma field_contains (k : string) (v x : value) :
  field k v = Some x -> contains k v = Ok true.
Proof. destruct v; try discriminate. cbn. intros ->. reflexivity. Qed.

Lemma field_item (k : string) (v x : value) :
  field k v = Some x -> item v k = Ok x.
Proof. destruct v; try discriminate. cbn. intros ->. reflexivity. Qed.

Lemma head_item0 (v x : value) : head_of v = Some x -> item0 v = Ok x.
Proof.
  destruct v as [| | | | |[|y l]|]; try discriminate. intros [= ->]. reflexivity.
Qed.

Lemma head_len (v x : value) : head_of v = Some x -> exists n, len v = Ok (S n).
Proof.
  destruct v as [| | | | |[|y l]|]; try discriminate. intros _. eexists. reflexivity.
Qed.

Lemma text_of_str (v : value) (s : string) : text_of v = Some s -> v = VStr s.
Proof. destruct v; try discriminate. intros [= ->]. reflexivity. Qed.

Ltac path_inv H :=
  unfold reply_text, text_path in H;
  cbn [follow] in H;
  repeat match type of H with
    | match (match field ?k ?v with _ => _ end) with _ => _ end = _ =>
        let E := fresh "Hfield" in
        destruct (field k v) eqn:E; [|discriminate H]
    | match (match head_of ?v with _ => _ end) with _ => _ end = _ =>
        let E := fresh "Hhead" in
        destruct (head_of v) eqn:E; [|discriminate H]
    end;
  apply text_of_str in H; subst.

Ltac path_run :=
  repeat match goal with
    | E : field ?k ?v = Some _ |- context [contains ?k ?v] =>
        rewrite (field_contains _ _ _ E); cbn [bind]
    | E : field ?k ?v = Some _ |- context [item ?v ?k] =>
        rewrite (field_item _ _ _ E); cbn [bind]
    | E : head_of ?v = Some _ |- context [len ?v] =>
        let n := fresh "n" in
        let Hn := fresh "Hn" in
        destruct (head_len _ _ E) as [n Hn]; rewrite Hn; cbn [bind Nat.ltb Nat.leb]
    | E : head_of ?v = Some _ |- context [item0 ?v] =>
        rewrite (head_item0 _ _ E); cbn [bind]
    end.

Ltac reach_reply Hbody Hsend Hst Hjson Htext :=
  rewrite Hbody; cbn [bind]; rewrite Hsend; cbn [bind];
  rewrite (raise_for_status_ok _ Hst); cbn [bind]; rewrite Hjson; cbn [bind];
  path_inv Htext; path_run; reflexivity.

(** A reply that is no failure (status outside 4xx/5xx, JSON body, text in
    its place) takes the [try] as far as [log_interaction], with that text;
    what is left to do after it is [strip]. *)
Lemma openai_reply_reaches_logger w self message context body r data s :
  OpenAIAgent.payload self message context = Ok body ->
  send w (OpenAIAgent.chat_request self body) = Ok r ->
  ~ (400 <= status_code r < 600)%Z ->
  json r = Ok data ->
  reply_text ClsOpenAI data = Some s ->
  OpenAIAgent.get_response_try w self message context
  = (_ <- log_interaction self message (VStr s) (elapsed_ms w) ;; Ok (str_strip s)).
Proof.
  intros Hbody Hsend Hst Hjson Htext.
  unfold OpenAIAgent.get_response_try, OpenAIAgent.response_text.
  reach_reply Hbody Hsend Hst Hjson Htext.
Qed.

Lemma groq_reply_reaches_logger w self message context body r data s :
  GroqAgent.payload self message context = Ok body ->
  send w (GroqAgent.chat_request self body) = Ok r ->
  ~ (400 <= status_code r < 600)%Z ->
  json r = Ok data ->
  reply_text ClsGroq data = Some s ->
  GroqAgent.get_response_try w self message context
  = (_ <- log_interaction self message (VStr s) (elapsed_ms w) ;; Ok (str_strip s)).
Proof.
  intros Hbody Hsend Hst Hjson Htext.
  unfold GroqAgent.get_response_try, GroqAgent.response_text.
  reach_reply Hbody Hsend Hst Hjson Htext.
Qed.

Lemma claude_reply_reaches_logger w self message context body r data s :
  ClaudeAgent.payload self message context = Ok body ->
  send w (ClaudeAgent.messages_request self body) = Ok r ->
  ~ (400 <= status_code r < 600)%Z ->
  json r = Ok data ->
  reply_text ClsClaude data = Some s ->
  ClaudeAgent.get_response_try w self message context
  = (_ <- log_interaction self message (VStr s) (elapsed_ms w) ;; Ok (str_strip s)).
Proof.
  intros Hbody Hsend Hst Hjson Htext.
  unfold ClaudeAgent.get_response_try, ClaudeAgent.response_text.
  reach_reply Hbody Hsend Hst Hjson Htext.
Qed.

Lemma gemini_reply_reaches_logger w self message context body r data s :
  GeminiAgent.payload self message context = Ok body ->
  send w (GeminiAgent.generate_request self body) = Ok r ->
  ~ (400 <= status_code r < 600)%Z ->
  json r = Ok data ->
  reply_text ClsGemini data = Some s ->
  GeminiAgent.get_response_try w self message context
  = (_ <- log_interaction self message (VStr s) (elapsed_ms w) ;; Ok (str_strip s)).
Proof.
  intros Hbody Hsend Hst Hjson Htext.
  unfold GeminiAgent.get_response_try.
  reach_reply Hbody Hsend Hst Hjson Htext.
Qed.

Lemma ollama_reply_reaches_logger render w self message context body r data s :
  OllamaAgent.payload render self message context = Ok body ->
  send w (OllamaAgent.generate_request self body) = Ok r ->
  ~ (400 <= status_code r < 600)%Z ->
  json r = Ok data ->
  reply_text ClsOllama data = Some s ->
  OllamaAgent.get_response_try render w self message context
  = (_ <- log_interaction self message (VStr s) (elapsed_ms w) ;; Ok (str_strip s)).
Proof.
  intros Hbody Hsend Hst Hjson Htext.
  unfold OllamaAgent.get_response_try.
  reach_reply Hbody Hsend Hst Hjson Htext.
Qed.

(** So a reply that carries its text where it should ends in the second
    handler as well. *)
Example openai_reply_ends_in_handler :
  OpenAIAgent.get_response (answering openai_hola) (OpenAIAgent.init scenario1)
    "hola" None
  = ("Error: Error procesando respuesta de OpenAI: " ++ logger_type_error)%string.
Proof. reflexivity. Qed.

Example groq_reply_ends_in_handler :
  GroqAgent.get_response (answering openai_hola) (GroqAgent.init scenario5)
    "hola" None
  = ("Error: Error procesando respuesta de Groq: " ++ logger_type_error)%string.
Proof. reflexivity. Qed.

Example claude_reply_ends_in_handler :
  ClaudeAgent.get_response (answering claude_hola) (ClaudeAgent.init scenario3)
    "hola" None
  = ("Error: Error procesando respuesta de Claude: " ++ logger_type_error)%string.
Proof. reflexivity. Qed.

Example gemini_reply_ends_in_handler :
  GeminiAgent.get_response (answering gemini_hola) (GeminiAgent.init gemini_flash)
    "hola" None
  = ("Error: Error procesando respuesta de Gemini: " ++ logger_type_error)%string.
Proof. reflexivity. Qed.

Example ollama_reply_ends_in_handler :
  OllamaAgent.get_response no_render (answering ollama_hola)
    (OllamaAgent.init scenario2) "hola" None
  = ("Error: Error procesando respuesta de Ollama: " ++ logger_type_error)%string.
Proof. reflexivity. Qed.

Ltac run_try :=
  repeat match goal with
    | |- exists e, Raise _ = Raise e => eexists; reflexivity
    | |- exists e, raise _ _ = Raise e => eexists; reflexivity
    | |- context [log_interaction _ _ _ _] =>
        rewrite log_interaction_raises; cbn [bind raise]
    | |- exists e, bind ?r _ = Raise e => destruct r; cbn [bind]
    | |- exists e, (if ?b then _ else _) = Raise e => destruct b
    end.

(** The [try] of each [get_response] ends in an exception on every path. *)
Lemma openai_try_raises w self message context :
  exists e, OpenAIAgent.get_response_try w self message context = Raise e.
Proof. unfold OpenAIAgent.get_response_try. run_try. Qed.

Lemma groq_try_raises w self message context :
  exists e, GroqAgent.get_response_try w self message context = Raise e.
Proof. unfold GroqAgent.get_response_try. run_try. Qed.

Lemma claude_try_raises w self message context :
  exists e, ClaudeAgent.get_response_try w self message context = Raise e.
Proof. unfold ClaudeAgent.get_response_try. run_try. Qed.

Lemma gemini_try_raises w self message context :
  exists e, GeminiAgent.get_response_try w self message context = Raise e.
Proof. unfold GeminiAgent.get_response_try. run_try. Qed.

Lemma ollama_try_raises render w self message context :
  exists e, OllamaAgent.get_response_try render w self message context = Raise e.
Proof. unfold OllamaAgent.get_response_try. run_try. Qed.

(** Every handler returns a string that starts with ["Error:"]. *)
Lemma get_response_starts_with_error render w self message context :
  String.prefix "Error:" (Agent.get_response render w self message context) = true.
Proof.
  unfold Agent.get_response. destruct (cls self).
  - unfold OpenAIAgent.get_response.
    destruct (openai_try_raises w self message context) as [e ->].
    destruct (isinstance_RequestException e); reflexivity.
  - unfold ClaudeAgent.get_response.
    destruct (claude_try_raises w self message context) as [e ->].
    destruct (isinstance_RequestException e); reflexivity.
  - unfold GeminiAgent.get_response.
    destruct (gemini_try_raises w self message context) as [e ->].
    destruct (isinstance_RequestException e); reflexivity.
  - unfold OllamaAgent.get_response.
    destruct (ollama_try_raises render w self message context) as [e ->].
    destruct (isinstance_ConnectionError e); [reflexivity|].
    destruct (isinstance_RequestException e); reflexivity.
  - unfold GroqAgent.get_response.
    destruct (groq_try_raises w self message context) as [e ->].
    destruct (isinstance_RequestException e); reflexivity.
Qed.

(** C1.  For a client of any class, any message and context, and any
    network: [get_response] returns a string (the handlers cover every
    exception the [try] can raise, so none passes its boundary), and when the
    network fails (the request raises, the status is 4xx or 5xx, the body is
    not JSON or does not carry the text) that string starts with
    ["Error:"]. *)
Theorem get_response_failure_is_error (render : value -> string) (w : world)
    (self : agent) (message : string) (context : option (list dict)) :
  (forall req, failure (cls self) (send w req)) ->
  exists reply : string,
    Agent.get_response render w self message context = reply /\
    String.prefix "Error:" reply = true.
Proof.
  intros _. eexists. split; [reflexivity|]. apply get_response_starts_with_error.
Qed.

Lemma get_response_failure_is_error_witness :
  (forall req, failure ClsOpenAI (send offline req)) /\
  exists reply : string,
    Agent.get_response no_render offline (OpenAIAgent.init scenario1) "hola" None
    = reply /\
    String.prefix "Error:" reply = true.
Proof.
  assert (H : forall req, failure ClsOpenAI (send offline req)) by (intros req; exact I).
  exact (conj H (get_response_failure_is_error no_render offline
                   (OpenAIAgent.init scenario1) "hola" None H)).
Defined.

(** ** C9: Ollama is not running *)

(** C9.  When the request of the Ollama client is refused (the exception is a
    [requests] [ConnectionError]), [get_response] returns the message that
    says Ollama is not running and how to start it (['ollama serve']), and
    not the generic connection-error message. *)
Theorem ollama_not_running (render : value -> string) (w : world) (self : agent)
    (message : string) (context : option (list dict)) (body : dict) (e : exn) :
  OllamaAgent.payload render self message context = Ok body ->
  send w (OllamaAgent.generate_request self body) = Raise e ->
  isinstance_ConnectionError e = true ->
  OllamaAgent.get_response render w self message context = OllamaAgent.not_running /\
  is_substring "Ollama no está ejecutándose" OllamaAgent.not_running = true /\
  is_substring "ollama serve" OllamaAgent.not_running = true /\
  OllamaAgent.not_running <> ollama_connection_error e.
Proof.
  intros Hbody Hsend Hclass. repeat split.
  - unfold OllamaAgent.get_response, OllamaAgent.get_response_try.
    rewrite Hbody. cbn [bind]. rewrite Hsend. cbn [bind]. rewrite Hclass.
    reflexivity.
  - intros H. unfold OllamaAgent.not_running, ollama_connection_error in H.
    cbn in H. discriminate H.
Qed.

Lemma ollama_not_running_witness :
  OllamaAgent.get_response no_render offline (OllamaAgent.init scenario2) "hola" None
  = OllamaAgent.not_running /\
  is_substring "Ollama no está ejecutándose" OllamaAgent.not_running = true /\
  is_substring "ollama serve" OllamaAgent.not_running = true /\
  OllamaAgent.not_running
  <> ollama_connection_error (MkExn ReqConnectionError "Connection refused").
Proof.
  exact (ollama_not_running no_render offline (OllamaAgent.init scenario2) "hola" None
           _ _ eq_refl eq_refl eq_refl).
Defined.

(** ** C5: the prompt of the Ollama client *)

Lemma context_lines_flattened (render : value -> string) (turns : list dict) :
  Forall has_content turns ->
  OllamaAgent.context_lines render turns = Ok (map (flattened_line render) turns).
Proof.
  induction 1 as [|msg rest Hmsg _ IH]; [reflexivity|].
  cbn [OllamaAgent.context_lines map]. rewrite (item_content _ Hmsg). cbn [bind].
  rewrite IH. cbn [bind]. unfold flattened_line.
  destruct (eq_str (get msg "role") "user"); reflexivity.
Qed.

(** On a context of one user turn and one assistant turn the prompt holds
    neither ["User:"] nor ["Assistant:"]: the prefixes are the Spanish
    ["Usuario: "] and ["Asistente: "]. *)
Lemma ollama_prompt_is_spanish :
  exists p,
    OllamaAgent.prompt no_render "adios" (Some hola_context) = Ok p /\
    p = String.concat newline
          ["Usuario: hola"; "Asistente: buenas"; "Usuario: adios"; "Asistente:"] /\
    is_substring "User:" p = false /\
    is_substring "Assistant:" p = false.
Proof. eexists. repeat split. Qed.

(** C5, as the code has it.  With a non-empty context whose turns carry a
    content, the Ollama client sends one prompt string: a line
    ["Usuario: <content>"] for each turn of role ['user'] and a line
    ["Asistente: <content>"] for each turn of any other role, in order, then
    the line ["Usuario: <message>"] and a last line ["Asistente:"].  It is
    the [prompt] entry of the payload whatever [default_params] holds. *)
Theorem ollama_prompt_flattening (render : value -> string) (self : agent)
    (message : string) (turns : list dict) :
  turns <> [] ->
  Forall has_content turns ->
  OllamaAgent.prompt render message (Some turns) = Ok (flattened render message turns) /\
  forall body,
    OllamaAgent.payload render self message (Some turns) = Ok body ->
    lookup_key "prompt" body = Some (VStr (flattened render message turns)).
Proof.
  intros Hne Hall.
  assert (Hp : OllamaAgent.prompt render message (Some turns)
               = Ok (flattened render message turns)).
  { unfold OllamaAgent.prompt. cbn [turns_of].
    destruct turns as [|msg rest]; [contradiction|].
    rewrite (context_lines_flattened render _ Hall). reflexivity. }
  split; [exact Hp|].
  intros body. unfold OllamaAgent.payload. rewrite Hp. cbn [bind].
  destruct (mapping (default_params self)); cbn [bind]; [|discriminate].
  intros [= <-]. reflexivity.
Qed.

Lemma ollama_prompt_flattening_witness :
  hola_context <> [] /\ Forall has_content hola_context /\
  OllamaAgent.prompt no_render "adios" (Some hola_context)
  = Ok (flattened no_render "adios" hola_context) /\
  forall body,
    OllamaAgent.payload no_render (OllamaAgent.init scenario2) "adios"
      (Some hola_context) = Ok body ->
    lookup_key "prompt" body = Some (VStr (flattened no_render "adios" hola_context)).
Proof.
  assert (H1 : hola_context <> []) by discriminate.
  assert (H2 : Forall has_content hola_context).
  { repeat constructor; eexists; reflexivity. }
  exact (conj H1 (conj H2 (ollama_prompt_flattening no_render
                             (OllamaAgent.init scenario2) "adios" hola_context H1 H2))).
Defined.

(** ** C10: the Claude client forwards user and assistant turns only *)

Lemma convert_filter (turns : list dict) :
  Forall (fun msg => forwarded_role msg = true -> has_content msg) turns ->
  ClaudeAgent.convert turns = Ok (map forward (List.filter forwarded_role turns)).
Proof.
  induction 1 as [|msg rest Hmsg _ IH]; [reflexivity|].
  cbn [ClaudeAgent.convert List.filter]. unfold forwarded_role, forward in *.
  destruct (eq_str (get msg "role") "user") eqn:Eu.
  - cbn [orb map]. rewrite (item_content msg (Hmsg eq_refl)). cbn [bind].
    rewrite IH, Eu. reflexivity.
  - destruct (eq_str (get msg "role") "assistant") eqn:Ea.
    + cbn [orb map]. rewrite (item_content msg (Hmsg eq_refl)). cbn [bind].
      rewrite IH, Eu. reflexivity.
    + cbn [orb]. exact IH.
Qed.

(** [default_params] is merged into the payload last.  With
    [default_params = {"messages": []}] a payload is built and its [messages]
    entry is the empty list: the user and assistant turns of the context are
    not in it, nor is the new message. *)
Lemma claude_messages_replaced :
  Forall (fun msg => forwarded_role msg = true /\ has_content msg) hola_context /\
  exists body,
    ClaudeAgent.payload (ClaudeAgent.init own_messages) "adios" (Some hola_context)
    = Ok body /\
    lookup_key "messages" body = Some (VList []).
Proof.
  split.
  - repeat constructor; eexists; reflexivity.
  - eexists. split; reflexivity.
Qed.

(** C10, as the code has it.  When every user or assistant turn of the
    context has a ['content'] and [default_params] is a dict without a
    [messages] entry, the Claude client drops every context turn whose role
    is neither ['user'] nor ['assistant'] and forwards the others, role and
    content, in their order, followed by the new user turn: this list is the
    [messages] entry of the payload. *)
Theorem claude_context_filter (self : agent) (message : string)
    (context : option (list dict)) (extra : dict) :
  Forall (fun msg => forwarded_role msg = true -> has_content msg) (turns_of context) ->
  default_params self = VDict extra ->
  lookup_key "messages" extra = None ->
  let sent := map forward (List.filter forwarded_role (turns_of context))
                ++ [turn "user" (VStr message)] in
  ClaudeAgent.messages message context = Ok sent /\
  exists body,
    ClaudeAgent.payload self message context = Ok body /\
    lookup_key "messages" body = Some (VList sent).
Proof.
  intros Hall Hextra Hfree sent.
  assert (Hm : ClaudeAgent.messages message context = Ok sent).
  { unfold ClaudeAgent.messages. rewrite (convert_filter _ Hall). reflexivity. }
  split; [exact Hm|].
  unfold ClaudeAgent.payload. rewrite Hm, Hextra. cbn [bind mapping].
  eexists. split; [reflexivity|].
  rewrite (lookup_update_absent _ _ _ Hfree). reflexivity.
Qed.

Lemma claude_context_filter_witness :
  ClaudeAgent.messages "adios" (Some mixed_context)
  = Ok [turn "user" (VStr "hola"); turn "assistant" (VStr "buenas");
        turn "user" (VStr "adios")] /\
  exists body,
    ClaudeAgent.payload (ClaudeAgent.init scenario3) "adios" (Some mixed_context)
    = Ok body /\
    lookup_key "messages" body
    = Some (VList [turn "user" (VStr "hola"); turn "assistant" (VStr "buenas");
                   turn "user" (VStr "adios")]).
Proof.
  refine (claude_context_filter (ClaudeAgent.init scenario3) "adios"
            (Some mixed_context) [] _ eq_refl eq_refl).
  repeat constructor; cbn; try discriminate; intros _; eexists; reflexivity.
Defined.

(** ** C4: the cost estimate *)

Lemma inject_nat_nonneg (n : nat) : (0 <= inject_Z (Z.of_nat n))%Q.
Proof. change 0%Q with (inject_Z 0). rewrite <- Zle_Qle. lia. Qed.

Lemma inject_nat_le (m n : nat) :
  (m <= n)%nat -> (inject_Z (Z.of_nat m) <= inject_Z (Z.of_nat n))%Q.
Proof. intros H. rewrite <- Zle_Qle. lia. Qed.

Lemma cost_of_nonneg (rates : Q * Q) (i o : nat) :
  rates_ok rates -> (0 <= cost_of rates i o)%Q.
Proof.
  intros [Hi Ho]. unfold cost_of, Qdiv.
  assert (Hk : (0 <= / 1000)%Q) by discriminate.
  pose proof (Qmult_le_0_compat _ _
                (Qmult_le_0_compat _ _ (inject_nat_nonneg i) Hk) Hi).
  pose proof (Qmult_le_0_compat _ _
                (Qmult_le_0_compat _ _ (inject_nat_nonneg o) Hk) Ho).
  lra.
Qed.

Lemma cost_of_monotone (rates : Q * Q) (i o i' o' : nat) :
  rates_ok rates -> (i <= i')%nat -> (o <= o')%nat ->
  (cost_of rates i o <= cost_of rates i' o')%Q.
Proof.
  intros [Hi Ho] Hii Hoo. unfold cost_of, Qdiv.
  assert (Hk : (0 <= / 1000)%Q) by discriminate.
  apply inject_nat_le in Hii, Hoo.
  apply Qplus_le_compat; apply Qmult_le_compat_r; auto;
    apply Qmult_le_compat_r; auto.
Qed.

Lemma div4_monotone (m n : nat) : (m <= n)%nat -> (m / 4 <= n / 4)%nat.
Proof. intros H. apply Nat.Div0.div_le_mono. exact H. Qed.

Lemma table_get_rates (table : list (string * (Q * Q))) (key : value) (dflt : Q * Q) :
  Forall (fun kv => rates_ok (snd kv)) table -> rates_ok dflt ->
  hashable key = true ->
  exists rates, table_get table key dflt = Ok rates /\ rates_ok rates.
Proof.
  intros Htable Hdflt Hkey.
  destruct key; try discriminate; cbn; try (eexists; split; [reflexivity|exact Hdflt]).
  eexists; split; [reflexivity|].
  destruct (find _ table) as [kv|] eqn:E; [|exact Hdflt].
  apply find_some in E. destruct E as [Hin _].
  rewrite List.Forall_forall in Htable. exact (Htable _ Hin).
Qed.

Ltac rates_table :=
  repeat constructor; cbn; unfold Qle; cbn; lia.

(** What [estimate_cost] computes, class by class: the rates of the
    configured model, or of the class's default model, applied to
    [len(message) // 4] and [len(response) // 4]; nothing for Ollama. *)
Lemma estimate_cost_formula (self : agent) :
  hashable (model_name self) = true ->
  exists rates,
    rates_ok rates /\
    forall message response,
      exists c,
        Agent.estimate_cost self message response = Ok c /\
        (c == cost_of rates (String.length message / 4) (String.length response / 4))%Q /\
        (cls self = ClsOllama -> c = 0%Q).
Proof.
  intros Hkey. unfold Agent.estimate_cost.
  destruct (cls self) eqn:Ecls.
  - destruct (table_get_rates OpenAIAgent.costs (model_name self) (0.00015, 0.0006)%Q)
      as (rates & Hget & Hok); [rates_table|rates_table|exact Hkey|].
    exists rates. split; [exact Hok|].
    intros message response. unfold OpenAIAgent.estimate_cost. rewrite Hget.
    eexists. split; [reflexivity|]. split; [reflexivity | discriminate].
  - destruct (table_get_rates ClaudeAgent.costs (model_name self) (0.003, 0.015)%Q)
      as (rates & Hget & Hok); [rates_table|rates_table|exact Hkey|].
    exists rates. split; [exact Hok|].
    intros message response. unfold ClaudeAgent.estimate_cost. rewrite Hget.
    eexists. split; [reflexivity|]. split; [reflexivity | discriminate].
  - destruct (table_get_rates GeminiAgent.costs (model_name self) (0.000075, 0.0003)%Q)
      as (rates & Hget & Hok); [rates_table|rates_table|exact Hkey|].
    exists rates. split; [exact Hok|].
    intros message response. unfold GeminiAgent.estimate_cost. rewrite Hget.
    eexists. split; [reflexivity|]. split; [reflexivity | discriminate].
  - exists (0, 0)%Q. split; [split; cbn; lra|].
    intros message response. exists 0%Q. split; [reflexivity|].
    split; [|reflexivity]. unfold cost_of. cbn [fst snd]. lra.
  - destruct (table_get_rates GroqAgent.costs (model_name self) (0.00059, 0.00079)%Q)
      as (rates & Hget & Hok); [rates_table|rates_table|exact Hkey|].
    exists rates. split; [exact Hok|].
    intros message response. unfold GroqAgent.estimate_cost. rewrite Hget.
    eexists. split; [reflexivity|]. split; [reflexivity | discriminate].
Qed.

(** For gpt-4o, four characters of response (one output token at 0.015)
    cost more than eight characters of message (two input tokens at 0.005):
    0.000015 against 0.000010. *)
Lemma cost_not_monotone_in_total_length :
  ~ monotone_in_total_length (OpenAIAgent.init gpt4o).
Proof.
  intros H.
  specialize (H "" "aaaa" "bbbbbbbb" "" _ _ ltac:(cbn; lia) eq_refl eq_refl).
  vm_compute in H. apply H. reflexivity.
Qed.

(** C4, as the code has it.  For a client whose model name is hashable (a
    string, in particular), [estimate_cost] returns a cost that is not
    negative, is exactly 0 for the Ollama client, and does not decrease when
    neither [len(message)] nor [len(response)] decreases.  (It can decrease
    when only the sum of the two lengths grows.)  The arithmetic is exact
    here; Python rounds each operation to a double. *)
Theorem estimate_cost_bounds (self : agent) (message response : string) :
  hashable (model_name self) = true ->
  exists c,
    Agent.estimate_cost self message response = Ok c /\
    (0 <= c)%Q /\
    (cls self = ClsOllama -> c = 0%Q) /\
    forall message' response',
      (String.length message <= String.length message')%nat ->
      (String.length response <= String.length response')%nat ->
      exists c',
        Agent.estimate_cost self message' response' = Ok c' /\ (c <= c')%Q.
Proof.
  intros Hkey.
  destruct (estimate_cost_formula self Hkey) as (rates & Hok & Hcost).
  destruct (Hcost message response) as (c & Hc & Heq & Hzero).
  exists c. repeat split; [exact Hc | | exact Hzero |].
  - rewrite Heq. apply cost_of_nonneg, Hok.
  - intros message' response' Hm Hr.
    destruct (Hcost message' response') as (c' & Hc' & Heq' & _).
    exists c'. split; [exact Hc'|]. rewrite Heq, Heq'.
    apply cost_of_monotone; auto using div4_monotone.
Qed.

Lemma estimate_cost_bounds_witness :
  exists c,
    Agent.estimate_cost (OpenAIAgent.init gpt4o) "hola" "buenas tardes" = Ok c /\
    (0 <= c)%Q /\
    (ClsOpenAI = ClsOllama -> c = 0%Q) /\
    forall message' response',
      (String.length "hola" <= String.length message')%nat ->
      (String.length "buenas tardes" <= String.length response')%nat ->
      exists c',
        Agent.estimate_cost (OpenAIAgent.init gpt4o) message' response' = Ok c' /\
        (c <= c')%Q.
Proof.
  exact (estimate_cost_bounds (OpenAIAgent.init gpt4o) "hola" "buenas tardes" eq_refl).
Defined.

(** ** C6: the model listing *)

(** With no model pulled, [get_available_models] of the Ollama client
    returns the empty list. *)
Lemma ollama_lists_no_model :
  Agent.get_available_models no_models_pulled (OllamaAgent.init scenario2) = [].
Proof. reflexivity. Qed.

Ltac fails_with H req :=
  let r := fresh "r" in
  let Hs := fresh "Hs" in
  specialize (H req); cbn [bind];
  destruct (send _ req) as [r|]; cbn [bind]; [|reflexivity];
  destruct (Z.eqb_spec (status_code r) 200) as [Hs|_]; [contradiction|reflexivity].

(** C6, as the code has it.  [get_available_models] is a total function into
    lists (the handler covers the whole [try]); when the network call fails,
    by an exception or by a status other than 200, the result is the fixed
    list of the class, which is not empty and holds model identifiers. *)
Theorem get_available_models_fallback (w : world) (self : agent) :
  listing_fails w ->
  Agent.get_available_models w self = fixed_models (cls self) /\
  fixed_models (cls self) <> [] /\
  Forall identifier (fixed_models (cls self)).
Proof.
  intros H. split;
    [|split; [destruct (cls self); discriminate
             |destruct (cls self); repeat constructor; eexists; reflexivity]].
  unfold Agent.get_available_models, fixed_models. destruct (cls self).
  - unfold OpenAIAgent.get_available_models, OpenAIAgent.get_available_models_try.
    fails_with H (OpenAIAgent.models_request self).
  - reflexivity.
  - unfold GeminiAgent.get_available_models, GeminiAgent.get_available_models_try.
    fails_with H (GeminiAgent.models_request self).
  - unfold OllamaAgent.get_available_models, OllamaAgent.get_available_models_try.
    fails_with H (OllamaAgent.tags_request self).
  - unfold GroqAgent.get_available_models, GroqAgent.get_available_models_try.
    fails_with H (GroqAgent.models_request self).
Qed.

Lemma get_available_models_fallback_witness :
  listing_fails offline /\
  Agent.get_available_models offline (GeminiAgent.init gemini_flash)
  = GeminiAgent.fallback_models /\
  GeminiAgent.fallback_models <> [] /\
  Forall identifier GeminiAgent.fallback_models.
Proof.
  assert (H : listing_fails offline) by (intros req; exact I).
  exact (conj H (get_available_models_fallback offline (GeminiAgent.init gemini_flash) H)).
Defined.

(** * Further properties of the agents *)

(** ** What [get_response] returns, case by case *)

Lemma gemini_convert_all (turns : list dict) :
  Forall has_content turns ->
  GeminiAgent.convert turns = Ok (map gemini_content turns).
Proof.
  induction 1 as [|msg rest Hmsg _ IH]; [reflexivity|].
  cbn [GeminiAgent.convert map]. rewrite (item_content _ Hmsg). cbn [bind].
  rewrite IH. reflexivity.
Qed.

(** X1.  A reply that carries its text is not returned: for every class the call
    ends in the second handler, with the text of the [TypeError] that
    [log_interaction] raises. *)
Theorem well_formed_reply_is_lost (render : value -> string) (w : world)
    (self : agent) (message : string) (context : option (list dict))
    (body : dict) (r : response) (data : value) (s : string) :
  Agent.payload render self message context = Ok body ->
  (forall req, send w req = Ok r) ->
  ~ (400 <= status_code r < 600)%Z ->
  json r = Ok data ->
  reply_text (cls self) data = Some s ->
  Agent.get_response render w self message context
  = processing_error (cls self) logger_type_error.
Proof.
  unfold Agent.payload, Agent.get_response. intros Hbody Hsend Hst Hjson Htext.
  destruct (cls self).
  - unfold OpenAIAgent.get_response.
    rewrite (openai_reply_reaches_logger _ _ _ _ _ _ _ _ Hbody (Hsend _) Hst Hjson Htext).
    reflexivity.
  - unfold ClaudeAgent.get_response.
    rewrite (claude_reply_reaches_logger _ _ _ _ _ _ _ _ Hbody (Hsend _) Hst Hjson Htext).
    reflexivity.
  - unfold GeminiAgent.get_response.
    rewrite (gemini_reply_reaches_logger _ _ _ _ _ _ _ _ Hbody (Hsend _) Hst Hjson Htext).
    reflexivity.
  - unfold OllamaAgent.get_response.
    rewrite (ollama_reply_reaches_logger _ _ _ _ _ _ _ _ _ Hbody (Hsend _) Hst Hjson Htext).
    reflexivity.
  - unfold GroqAgent.get_response.
    rewrite (groq_reply_reaches_logger _ _ _ _ _ _ _ _ Hbody (Hsend _) Hst Hjson Htext).
    reflexivity.
Qed.

Lemma well_formed_reply_is_lost_witness :
  Agent.get_response no_render (answering claude_hola) (ClaudeAgent.init scenario3)
    "hola" None
  = processing_error ClsClaude logger_type_error.
Proof.
  refine (well_formed_reply_is_lost no_render (answering claude_hola)
            (ClaudeAgent.init scenario3) "hola" None _ _ claude_hola " hola "
            eq_refl (fun _ => eq_refl) _ eq_refl eq_refl).
  cbn. lia.
Defined.

(** X2.  When the request itself raises, the reply names the exception: the
    connection message for a [requests] exception, the processing message for
    any other; for Ollama a [ConnectionError] gives the not-running message
    instead. *)
Theorem transport_error_message (render : value -> string) (w : world)
    (self : agent) (message : string) (context : option (list dict))
    (body : dict) (e : exn) :
  Agent.payload render self message context = Ok body ->
  (forall req, send w req = Raise e) ->
  Agent.get_response render w self message context
  = match cls self with
    | ClsOllama =>
        if isinstance_ConnectionError e then OllamaAgent.not_running
        else if isinstance_RequestException e
        then connection_error ClsOllama (exn_str e)
        else processing_error ClsOllama (exn_str e)
    | c =>
        if isinstance_RequestException e then connection_error c (exn_str e)
        else processing_error c (exn_str e)
    end.
Proof.
  unfold Agent.payload, Agent.get_response. intros Hbody Hsend.
  destruct (cls self).
  - unfold OpenAIAgent.get_response, OpenAIAgent.get_response_try.
    rewrite Hbody. cbn [bind]. rewrite Hsend. cbn [bind].
    destruct (isinstance_RequestException e); reflexivity.
  - unfold ClaudeAgent.get_response, ClaudeAgent.get_response_try.
    rewrite Hbody. cbn [bind]. rewrite Hsend. cbn [bind].
    destruct (isinstance_RequestException e); reflexivity.
  - unfold GeminiAgent.get_response, GeminiAgent.get_response_try.
    rewrite Hbody. cbn [bind]. rewrite Hsend. cbn [bind].
    destruct (isinstance_RequestException e); reflexivity.
  - unfold OllamaAgent.get_response, OllamaAgent.get_response_try.
    rewrite Hbody. cbn [bind]. rewrite Hsend. cbn [bind].
    destruct (isinstance_ConnectionError e); [reflexivity|].
    destruct (isinstance_RequestException e); reflexivity.
  - unfold GroqAgent.get_response, GroqAgent.get_response_try.
    rewrite Hbody. cbn [bind]. rewrite Hsend. cbn [bind].
    destruct (isinstance_RequestException e); reflexivity.
Qed.

Lemma transport_error_message_witness :
  Agent.get_response no_render offline (GroqAgent.init scenario5) "hola" None
  = connection_error ClsGroq "Connection refused".
Proof.
  exact (transport_error_message no_render offline (GroqAgent.init scenario5) "hola"
           None _ _ eq_refl (fun _ => eq_refl)).
Defined.

(** X3.  A reply with a 4xx or 5xx status gives the connection message with the
    text of the [HTTPError], for every class and whatever the body holds. *)
Theorem http_error_message (render : value -> string) (w : world)
    (self : agent) (message : string) (context : option (list dict))
    (body : dict) (r : response) :
  Agent.payload render self message context = Ok body ->
  (forall req, send w req = Ok r) ->
  (400 <= status_code r < 600)%Z ->
  Agent.get_response render w self message context
  = connection_error (cls self) (http_error r).
Proof.
  unfold Agent.payload, Agent.get_response. intros Hbody Hsend Hst.
  assert (Hraise : raise_for_status r = raise ReqHTTPError (http_error r)).
  { unfold raise_for_status.
    destruct (Z.leb_spec 400 (status_code r)), (Z.ltb_spec (status_code r) 600);
      try reflexivity; lia. }
  destruct (cls self).
  - unfold OpenAIAgent.get_response, OpenAIAgent.get_response_try.
    rewrite Hbody. cbn [bind]. rewrite Hsend. cbn [bind]. rewrite Hraise. reflexivity.
  - unfold ClaudeAgent.get_response, ClaudeAgent.get_response_try.
    rewrite Hbody. cbn [bind]. rewrite Hsend. cbn [bind]. rewrite Hraise. reflexivity.
  - unfold GeminiAgent.get_response, GeminiAgent.get_response_try.
    rewrite Hbody. cbn [bind]. rewrite Hsend. cbn [bind]. rewrite Hraise. reflexivity.
  - unfold OllamaAgent.get_response, OllamaAgent.get_response_try.
    rewrite Hbody. cbn [bind]. rewrite Hsend. cbn [bind]. rewrite Hraise. reflexivity.
  - unfold GroqAgent.get_response, GroqAgent.get_response_try.
    rewrite Hbody. cbn [bind]. rewrite Hsend. cbn [bind]. rewrite Hraise. reflexivity.
Qed.

Lemma http_error_message_witness :
  Agent.get_response no_render (refusing 401 "401 Client Error: Unauthorized")
    (OpenAIAgent.init scenario1) "hola" None
  = connection_error ClsOpenAI "401 Client Error: Unauthorized".
Proof.
  refine (http_error_message no_render (refusing 401 "401 Client Error: Unauthorized")
            (OpenAIAgent.init scenario1) "hola" None _ _ eq_refl (fun _ => eq_refl) _).
  cbn. lia.
Defined.

Lemma mapping_not_dict (v : value) :
  (forall d, v <> VDict d) ->
  mapping v = raise TypeError ("'" ++ type_name v ++ "' object is not a mapping").
Proof. intros H. destruct v; try reflexivity. destruct (H d eq_refl). Qed.

Lemma forwarded_has_content (turns : list dict) :
  Forall has_content turns ->
  Forall (fun msg => forwarded_role msg = true -> has_content msg) turns.
Proof. intros H. eapply List.Forall_impl; [|exact H]. auto. Qed.

Lemma ollama_prompt_ok (render : value -> string) (message : string)
    (context : option (list dict)) :
  Forall has_content (turns_of context) ->
  exists p, OllamaAgent.prompt render message context = Ok p.
Proof.
  intros H. unfold OllamaAgent.prompt.
  destruct (turns_of context) as [|msg rest]; [eexists; reflexivity|].
  rewrite (context_lines_flattened render _ H). eexists. reflexivity.
Qed.

(** X4.  When [default_params] is not a mapping ([None], as a NULL column gives
    it), building the request body raises: the reply is the processing
    message with Python's text for it, the same whatever the network would
    have answered, since no request is made. *)
Theorem bad_default_params_message (render : value -> string) (w : world)
    (self : agent) (message : string) (context : option (list dict)) :
  (forall d, default_params self <> VDict d) ->
  Forall has_content (turns_of context) ->
  Agent.get_response render w self message context
  = processing_error (cls self)
      ("'" ++ type_name (default_params self) ++ "' object is not a mapping").
Proof.
  intros Hparams Hturns. apply mapping_not_dict in Hparams.
  unfold Agent.get_response. destruct (cls self).
  - unfold OpenAIAgent.get_response, OpenAIAgent.get_response_try, OpenAIAgent.payload.
    rewrite Hparams. reflexivity.
  - unfold ClaudeAgent.get_response, ClaudeAgent.get_response_try, ClaudeAgent.payload,
      ClaudeAgent.messages.
    rewrite (convert_filter _ (forwarded_has_content _ Hturns)). cbn [bind].
    rewrite Hparams. reflexivity.
  - unfold GeminiAgent.get_response, GeminiAgent.get_response_try, GeminiAgent.payload,
      GeminiAgent.contents.
    rewrite (gemini_convert_all _ Hturns). cbn [bind].
    rewrite Hparams. reflexivity.
  - unfold OllamaAgent.get_response, OllamaAgent.get_response_try, OllamaAgent.payload.
    destruct (ollama_prompt_ok render message context Hturns) as [p ->]. cbn [bind].
    rewrite Hparams. reflexivity.
  - unfold GroqAgent.get_response, GroqAgent.get_response_try, GroqAgent.payload.
    rewrite Hparams. reflexivity.
Qed.

Lemma bad_default_params_message_witness :
  Agent.get_response no_render (answering openai_hola) (OpenAIAgent.init null_params)
    "hola" (Some hola_context)
  = processing_error ClsOpenAI "'NoneType' object is not a mapping".
Proof.
  refine (bad_default_params_message no_render (answering openai_hola)
            (OpenAIAgent.init null_params) "hola" (Some hola_context) _ _).
  - intros d. discriminate.
  - repeat constructor; eexists; reflexivity.
Defined.

Lemma claude_convert_missing (turns : list dict) :
  Exists (fun msg => forwarded_role msg = true /\ ~ has_content msg) turns ->
  ClaudeAgent.convert turns = raise KeyError "'content'".
Proof.
  induction turns as [|msg rest IH]; intros H; [inversion H|].
  cbn [ClaudeAgent.convert]. unfold item.
  destruct (lookup_key "content" msg) as [c|] eqn:Hc.
  - assert (Hrest : ClaudeAgent.convert rest = raise KeyError "'content'").
    { apply IH. inversion H as [? ? [_ Hno]|]; subst; [|assumption].
      destruct Hno. exists c. exact Hc. }
    rewrite Hrest.
    destruct (eq_str (get msg "role") "user");
      [reflexivity | destruct (eq_str (get msg "role") "assistant"); reflexivity].
  - destruct (eq_str (get msg "role") "user") eqn:Eu; [reflexivity|].
    destruct (eq_str (get msg "role") "assistant") eqn:Ea; [reflexivity|].
    apply IH. inversion H as [? ? [Hf _]|]; subst; [|assumption].
    unfold forwarded_role in Hf. rewrite Eu, Ea in Hf. discriminate.
Qed.

Lemma gemini_convert_missing (turns : list dict) :
  Exists (fun msg => ~ has_content msg) turns ->
  GeminiAgent.convert turns = raise KeyError "'content'".
Proof.
  induction turns as [|msg rest IH]; intros H; [inversion H|].
  cbn [GeminiAgent.convert]. unfold item.
  destruct (lookup_key "content" msg) as [c|] eqn:Hc; [|reflexivity].
  cbn [bind]. rewrite IH; [reflexivity|].
  inversion H as [? ? Hno|]; subst; [|assumption].
  destruct Hno. exists c. exact Hc.
Qed.

Lemma ollama_lines_missing (render : value -> string) (turns : list dict) :
  Exists (fun msg => ~ has_content msg) turns ->
  OllamaAgent.context_lines render turns = raise KeyError "'content'".
Proof.
  induction turns as [|msg rest IH]; intros H; [inversion H|].
  cbn [OllamaAgent.context_lines]. unfold item.
  destruct (lookup_key "content" msg) as [c|] eqn:Hc; [|reflexivity].
  cbn [bind]. rewrite IH; [reflexivity|].
  inversion H as [? ? Hno|]; subst; [|assumption].
  destruct Hno. exists c. exact Hc.
Qed.

Lemma exists_reads (c : agent_class) (turns : list dict) :
  Exists (fun msg => reads_content c msg = true /\ ~ has_content msg) turns ->
  Exists (fun msg => ~ has_content msg) turns.
Proof.
  intros H. eapply List.Exists_impl; [|exact H]. intros msg [_ Hno]. exact Hno.
Qed.

(** X5.  A context turn without a ['content'] key, where the class reads it
    (Claude: in a user or assistant turn; Gemini and Ollama: in any turn),
    ends the call before any request: the reply is the processing message
    with the text of the [KeyError]. *)
Theorem missing_content_message (render : value -> string) (w : world)
    (self : agent) (message : string) (context : option (list dict)) :
  Exists (fun msg => reads_content (cls self) msg = true /\ ~ has_content msg)
    (turns_of context) ->
  Agent.get_response render w self message context
  = processing_error (cls self) "'content'".
Proof.
  intros H. unfold Agent.get_response.
  destruct (cls self) eqn:Ecls.
  - apply Exists_exists in H. destruct H as (msg & _ & Hf & _). discriminate Hf.
  - unfold ClaudeAgent.get_response, ClaudeAgent.get_response_try, ClaudeAgent.payload,
      ClaudeAgent.messages.
    rewrite (claude_convert_missing _ H). reflexivity.
  - unfold GeminiAgent.get_response, GeminiAgent.get_response_try, GeminiAgent.payload,
      GeminiAgent.contents.
    rewrite (gemini_convert_missing _ (exists_reads _ _ H)). reflexivity.
  - unfold OllamaAgent.get_response, OllamaAgent.get_response_try, OllamaAgent.payload,
      OllamaAgent.prompt.
    pose proof (ollama_lines_missing render _ (exists_reads _ _ H)) as Hl.
    destruct (turns_of context) as [|msg rest]; [inversion H|].
    rewrite Hl. reflexivity.
  - apply Exists_exists in H. destruct H as (msg & _ & Hf & _). discriminate Hf.
Qed.

Lemma missing_content_message_witness :
  Agent.get_response no_render (answering gemini_hola) (GeminiAgent.init gemini_flash)
    "adios" (Some broken_context)
  = processing_error ClsGemini "'content'".
Proof.
  refine (missing_content_message no_render (answering gemini_hola)
            (GeminiAgent.init gemini_flash) "adios" (Some broken_context) _).
  apply Exists_cons_tl, Exists_cons_hd. split; [reflexivity|].
  intros [c Hc]. discriminate Hc.
Defined.

(** X6.  The Gemini client keeps every turn of the context, in order: the role
    ['user'] stays ["user"], every other role (['assistant'], ['system'], a
    missing role) becomes ["model"]; the new message comes last.  The list is
    the [contents] entry of the body whatever [default_params] holds. *)
Theorem gemini_keeps_every_turn (self : agent) (message : string)
    (context : option (list dict)) :
  Forall has_content (turns_of context) ->
  let sent := map gemini_content (turns_of context)
                ++ [GeminiAgent.content_of "user" (VStr message)] in
  GeminiAgent.contents message context = Ok sent /\
  length sent = S (length (turns_of context)) /\
  forall body,
    GeminiAgent.payload self message context = Ok body ->
    lookup_key "contents" body = Some (VList sent).
Proof.
  intros Hall sent.
  assert (Hc : GeminiAgent.contents message context = Ok sent).
  { unfold GeminiAgent.contents. rewrite (gemini_convert_all _ Hall). reflexivity. }
  split; [exact Hc|]. split.
  - unfold sent. rewrite length_app, length_map. cbn. lia.
  - intros body. unfold GeminiAgent.payload. rewrite Hc. cbn [bind].
    destruct (mapping (default_params self)); cbn [bind]; [|discriminate].
    intros [= <-]. reflexivity.
Qed.

Lemma gemini_keeps_every_turn_witness :
  let sent := [GeminiAgent.content_of "user" (VStr "hola");
               GeminiAgent.content_of "model" (VStr "buenas");
               GeminiAgent.content_of "user" (VStr "adios")] in
  GeminiAgent.contents "adios" (Some hola_context) = Ok sent /\
  length sent = 3 /\
  forall body,
    GeminiAgent.payload (GeminiAgent.init gemini_flash) "adios" (Some hola_context)
    = Ok body ->
    lookup_key "contents" body = Some (VList sent).
Proof.
  refine (gemini_keeps_every_turn (GeminiAgent.init gemini_flash) "adios"
            (Some hola_context) _).
  repeat constructor; eexists; reflexivity.
Defined.

(** ** Where [default_params] lands in the request body *)

Lemma lookup_set_item_eq (k : string) (v : value) (d : dict) :
  lookup_key k (set_item k v d) = Some v.
Proof.
  induction d as [|[k0 v0] d IH]; cbn.
  - rewrite String.eqb_refl. reflexivity.
  - destruct (String.eqb k k0) eqn:E; cbn; rewrite E; [reflexivity | exact IH].
Qed.

Lemma lookup_key_not_in (k : string) (d : dict) :
  ~ In k (map fst d) -> lookup_key k d = None.
Proof.
  induction d as [|[k0 v0] d IH]; intros H; [reflexivity|]. cbn in *.
  destruct (String.eqb k k0) eqn:E.
  - apply String.eqb_eq in E. subst. destruct H. left. reflexivity.
  - apply IH. intros Hin. apply H. right. exact Hin.
Qed.

Lemma lookup_update_present (k : string) (v : value) (extra d : dict) :
  List.NoDup (map fst extra) ->
  lookup_key k extra = Some v ->
  lookup_key k (update d extra) = Some v.
Proof.
  unfold update. revert d.
  induction extra as [|[k0 v0] extra IH]; intros d Hnd H; [discriminate H|].
  cbn in H. cbn [fold_left fst snd]. inversion Hnd as [|? ? Hnotin Hnd']; subst.
  destruct (String.eqb k k0) eqn:E.
  - apply String.eqb_eq in E. subst k0. injection H as ->.
    change (lookup_key k (update (set_item k v d) extra) = Some v).
    rewrite (lookup_update_absent _ _ _ (lookup_key_not_in _ _ Hnotin)).
    apply lookup_set_item_eq.
  - apply IH; assumption.
Qed.

(** X7.  For OpenAI, Groq and Claude [default_params] is merged into the request
    body last: every entry of it is an entry of the body, also where the body
    has a field of that name ([model], [messages], [max_tokens],
    [temperature]). *)
Theorem default_params_override (render : value -> string) (self : agent)
    (message : string) (context : option (list dict)) (extra body : dict)
    (k : string) (v : value) :
  merged_at_top (cls self) = true ->
  default_params self = VDict extra ->
  List.NoDup (map fst extra) ->
  lookup_key k extra = Some v ->
  Agent.payload render self message context = Ok body ->
  lookup_key k body = Some v.
Proof.
  unfold Agent.payload. intros Htop Hextra Hnd Hk.
  destruct (cls self); try discriminate Htop.
  - unfold OpenAIAgent.payload. rewrite Hextra. cbn [bind mapping].
    intros [= <-]. apply lookup_update_present; assumption.
  - unfold ClaudeAgent.payload.
    destruct (ClaudeAgent.messages message context); cbn [bind]; [|discriminate].
    rewrite Hextra. cbn [bind mapping].
    intros [= <-]. apply lookup_update_present; assumption.
  - unfold GroqAgent.payload. rewrite Hextra. cbn [bind mapping].
    intros [= <-]. apply lookup_update_present; assumption.
Qed.

Lemma default_params_override_witness :
  exists body,
    Agent.payload no_render (OpenAIAgent.init tuned) "hola" None = Ok body /\
    lookup_key "temperature" body = Some (VInt 0).
Proof.
  eexists. split; [reflexivity|].
  refine (default_params_override no_render (OpenAIAgent.init tuned) "hola" None
            _ _ "temperature" (VInt 0) eq_refl eq_refl _ eq_refl eq_refl).
  repeat constructor; cbn; intuition discriminate.
Defined.

(** X8.  The OpenAI and Groq clients send the context as it is given: every
    turn, whatever its role and its keys, in order, then the new user turn
    (as long as [default_params] brings no [messages] of its own). *)
Theorem context_sent_verbatim (render : value -> string) (self : agent)
    (message : string) (context : option (list dict)) (extra : dict) :
  cls self = ClsOpenAI \/ cls self = ClsGroq ->
  default_params self = VDict extra ->
  lookup_key "messages" extra = None ->
  exists body,
    Agent.payload render self message context = Ok body /\
    lookup_key "messages" body
    = Some (VList (map VDict (turns_of context) ++ [turn "user" (VStr message)])).
Proof.
  unfold Agent.payload. intros [Hc|Hc] Hextra Hfree; rewrite Hc.
  - unfold OpenAIAgent.payload. rewrite Hextra. cbn [bind mapping].
    eexists. split; [reflexivity|].
    rewrite (lookup_update_absent _ _ _ Hfree). reflexivity.
  - unfold GroqAgent.payload. rewrite Hextra. cbn [bind mapping].
    eexists. split; [reflexivity|].
    rewrite (lookup_update_absent _ _ _ Hfree). reflexivity.
Qed.

Lemma context_sent_verbatim_witness :
  exists body,
    Agent.payload no_render (OpenAIAgent.init tuned) "adios" (Some mixed_context)
    = Ok body /\
    lookup_key "messages" body
    = Some (VList (map VDict mixed_context ++ [turn "user" (VStr "adios")])).
Proof.
  exact (context_sent_verbatim no_render (OpenAIAgent.init tuned) "adios"
           (Some mixed_context) _ (or_introl eq_refl) eq_refl eq_refl).
Defined.

(** X9.  For Gemini and Ollama [default_params] is merged into the inner
    object ([generationConfig], [options]) and not into the top level:
    whatever [default_params] holds (the empty dict included), the body has
    exactly its own top-level keys, and every entry of [default_params] is an
    entry of the inner object. *)
Theorem default_params_nested (render : value -> string) (self : agent)
    (message : string) (context : option (list dict)) (extra body : dict) :
  merged_at_top (cls self) = false ->
  default_params self = VDict extra ->
  Agent.payload render self message context = Ok body ->
  map fst body = top_keys (cls self) /\
  exists inner,
    lookup_key (inner_key (cls self)) body = Some (VDict inner) /\
    (List.NoDup (map fst extra) ->
     forall k v, lookup_key k extra = Some v -> lookup_key k inner = Some v).
Proof.
  unfold Agent.payload. intros Htop Hextra.
  destruct (cls self); try discriminate Htop.
  - unfold GeminiAgent.payload.
    destruct (GeminiAgent.contents message context); cbn [bind]; [|discriminate].
    rewrite Hextra. cbn [bind mapping]. intros [= <-].
    split; [reflexivity|]. eexists. split; [reflexivity|].
    intros Hnd k v Hk. apply lookup_update_present; assumption.
  - unfold OllamaAgent.payload.
    destruct (OllamaAgent.prompt render message context); cbn [bind]; [|discriminate].
    rewrite Hextra. cbn [bind mapping]. intros [= <-].
    split; [reflexivity|]. eexists. split; [reflexivity|].
    intros Hnd k v Hk. apply lookup_update_present; assumption.
Qed.

Lemma default_params_nested_witness :
  exists body,
    Agent.payload no_render (OllamaAgent.init tuned_ollama) "hola" None = Ok body /\
    map fst body = ["model"; "prompt"; "stream"; "options"] /\
    exists inner,
      lookup_key "options" body = Some (VDict inner) /\
      (List.NoDup ["prompt"; "top_k"] ->
       forall k v,
         lookup_key k [("prompt", VStr "otro"); ("top_k", VInt 40)] = Some v ->
         lookup_key k inner = Some v).
Proof.
  eexists. split; [reflexivity|].
  exact (default_params_nested no_render (OllamaAgent.init tuned_ollama) "hola" None
           _ _ eq_refl eq_refl eq_refl).
Defined.

(** ** The factory *)

Lemma supported_class (provider : string) :
  In (lower provider) AgentFactory.get_supported_providers <->
  exists c, AgentFactory.registry_get AgentFactory.AGENT_CLASSES (lower provider) = Some c.
Proof.
  split.
  - cbn. intros [H|[H|[H|[H|[H|[]]]]]]; rewrite <- H; eexists; reflexivity.
  - intros [c H]. cbn in *.
    repeat match type of H with
      | (if String.eqb ?a ?b then _ else _) = _ =>
          destruct (String.eqb_spec a b) as [->|_]; [cbn; tauto|]
      end.
    discriminate H.
Qed.

Lemma create_agent_unknown (provider : string) (config : dict) (validate : bool) :
  AgentFactory.registry_get AgentFactory.AGENT_CLASSES (lower provider) = None ->
  AgentFactory.create_agent provider config validate = None.
Proof.
  intros H. unfold AgentFactory.create_agent, AgentFactory.create_agent_try.
  rewrite H. reflexivity.
Qed.

Lemma create_agent_lenient (provider : string) (config : dict) (c : agent_class) :
  AgentFactory.registry_get AgentFactory.AGENT_CLASSES (lower provider) = Some c ->
  AgentFactory.create_agent provider config false = Some (Agent.construct c config).
Proof.
  intros H. unfold AgentFactory.create_agent, AgentFactory.create_agent_try.
  rewrite H. rewrite andb_false_r. reflexivity.
Qed.

Lemma create_agent_strict (provider : string) (config : dict) (c : agent_class) :
  AgentFactory.registry_get AgentFactory.AGENT_CLASSES (lower provider) = Some c ->
  AgentFactory.create_agent provider config true
  = if (all_present config AgentFactory.required_fields
        && all_present config (requirement (lower provider))
        && validate_config (Agent.construct c config))%bool
    then Some (Agent.construct c config)
    else None.
Proof.
  intros H.
  unfold AgentFactory.create_agent, AgentFactory.create_agent_try,
    AgentFactory._validate_config, requirement.
  rewrite H.
  destruct (all_present config AgentFactory.required_fields); [|reflexivity].
  cbn [negb].
  destruct (all_present config _); [|reflexivity].
  cbn [negb andb].
  destruct (validate_config (Agent.construct c config)); reflexivity.
Qed.

(** X10.  Without validation ([validate_api_key=False], as the chat window and the
    comparison view call it) [create_agent] returns an instance for every
    registered provider name, in any letter case and whatever the config
    holds; for a name that is not registered it returns [None], with or
    without validation. *)
Theorem create_agent_without_validation (provider : string) (config : dict) :
  (In (lower provider) AgentFactory.get_supported_providers ->
   exists c,
     AgentFactory.registry_get AgentFactory.AGENT_CLASSES (lower provider) = Some c /\
     AgentFactory.create_agent provider config false = Some (Agent.construct c config)) /\
  (~ In (lower provider) AgentFactory.get_supported_providers ->
   forall validate, AgentFactory.create_agent provider config validate = None).
Proof.
  split.
  - intros H. apply supported_class in H. destruct H as [c H].
    exists c. split; [exact H | apply create_agent_lenient, H].
  - intros H validate. apply create_agent_unknown.
    destruct (AgentFactory.registry_get _ _) as [c|] eqn:E; [|reflexivity].
    destruct H. apply supported_class. exists c. exact E.
Qed.

Lemma requirement_api_key (provider : string) (config : dict) :
  In (lower provider) AgentFactory.get_supported_providers ->
  all_present config (requirement (lower provider))
  = (truthy (get config "api_key") || String.eqb (lower provider) "ollama")%bool.
Proof.
  cbn. intros [H|[H|[H|[H|[H|[]]]]]]; rewrite <- H; cbn;
    destruct (truthy (get config "api_key")); reflexivity.
Qed.

Lemma creatable_iff (provider : string) (config : dict) :
  (exists a, AgentFactory.create_agent provider config true = Some a) <->
  creatable provider config.
Proof.
  unfold creatable.
  destruct (AgentFactory.registry_get AgentFactory.AGENT_CLASSES (lower provider))
    as [c|] eqn:Hreg.
  - assert (Hin : In (lower provider) AgentFactory.get_supported_providers).
    { apply supported_class. exists c. exact Hreg. }
    rewrite (create_agent_strict _ _ _ Hreg), (requirement_api_key _ config Hin).
    unfold AgentFactory.required_fields. rewrite !all_present_cons. cbn [all_present].
    pose proof (validate_config_init config) as Hv. rewrite <- construct_base with (c := c) in Hv.
    rewrite <- !truthy_get in *.
    destruct (String.eqb_spec (lower provider) "ollama") as [Ho|Ho];
      destruct (truthy (get config "name")), (truthy (get config "model_name")),
        (truthy (get config "api_key")),
        (validate_config (Agent.construct c config));
      cbn; split; try (intros [a Ha]; try discriminate Ha);
      try (intros H; exfalso; intuition congruence);
      try (eexists; reflexivity); intuition (try congruence).
  - rewrite (create_agent_unknown _ _ _ Hreg). split.
    + intros [a Ha]. discriminate Ha.
    + intros [Hin _]. apply supported_class in Hin. destruct Hin as [c Hc]. congruence.
Qed.

(** X11.  With validation, [create_agent] returns an instance exactly when the
    provider name is registered, [name], [provider] and [model_name] are
    non-empty in the config, and either [api_key] is non-empty or both the
    provider name (lower-cased) and the config's [provider] (as written) are
    ['ollama']. *)
Theorem create_agent_with_validation (provider : string) (config : dict) :
  (exists a, AgentFactory.create_agent provider config true = Some a) <->
  creatable provider config.
Proof. apply creatable_iff. Qed.

(** X12.  An instance that [create_agent] returns with validation is the class's
    instance for that config, passes its own [validate_config], and reports
    the status ["configured"]. *)
Theorem created_agent_is_configured (provider : string) (config : dict) (a : agent) :
  AgentFactory.create_agent provider config true = Some a ->
  BaseAgent.config a = config /\
  validate_config a = true /\
  lookup_key "status" (get_info a) = Some (VStr "configured").
Proof.
  intros H.
  destruct (AgentFactory.registry_get AgentFactory.AGENT_CLASSES (lower provider))
    as [c|] eqn:Hreg.
  - rewrite (create_agent_strict _ _ _ Hreg) in H.
    destruct (validate_config (Agent.construct c config)) eqn:Hv;
      [|rewrite andb_false_r in H; discriminate H].
    destruct (_ && _)%bool in H; [|discriminate H]. injection H as <-.
    split; [rewrite construct_base; reflexivity|]. split; [exact Hv|].
    unfold get_info. rewrite Hv. reflexivity.
  - rewrite (create_agent_unknown _ _ _ Hreg) in H. discriminate H.
Qed.

Lemma created_agent_is_configured_witness :
  BaseAgent.config (OllamaAgent.init scenario2) = scenario2 /\
  validate_config (OllamaAgent.init scenario2) = true /\
  lookup_key "status" (get_info (OllamaAgent.init scenario2)) = Some (VStr "configured").
Proof.
  exact (created_agent_is_configured "OLLAMA" scenario2 (OllamaAgent.init scenario2)
           eq_refl).
Defined.

(** X13.  [test_agent_connection] makes no request when the instance cannot be
    created: the result is the fixed failure record with the provider name,
    whatever the network would answer. *)
Theorem test_agent_connection_not_created (render : value -> string) (w : world)
    (provider : string) (config : dict) :
  ~ creatable provider config ->
  AgentFactory.test_agent_connection render w provider config = not_created provider.
Proof.
  intros H.
  unfold AgentFactory.test_agent_connection, AgentFactory.test_agent_connection_try.
  destruct (AgentFactory.create_agent provider config true) as [a|] eqn:E;
    [|reflexivity].
  destruct H. apply creatable_iff. exists a. exact E.
Qed.

Lemma test_agent_connection_not_created_witness :
  AgentFactory.test_agent_connection no_render (answering openai_hola) "Ollama"
    [("name", VStr "t"); ("provider", VStr "Ollama"); ("model_name", VStr "llama3.1")]
  = not_created "Ollama".
Proof.
  refine (test_agent_connection_not_created no_render (answering openai_hola) "Ollama"
            _ _).
  intros (_ & _ & _ & _ & [(v & H & _) | [_ H]]); discriminate H.
Defined.

(** ** Connection tests *)

Ltac probe_cases Hs :=
  match goal with
  | |- context [send ?w ?req] =>
      let r := fresh "r" in
      let e := fresh "e" in
      destruct (send w req) as [r|e] eqn:Hs; cbn [bind]
  end.

(** X14.  For the four hosted classes [test_connection] reports [success: True]
    exactly when the probe is answered with status 200, body unread; in every
    other case (another status, any exception) it reports [success: False]. *)
Theorem test_connection_success_iff (render : value -> string) (w : world)
    (self : agent) :
  cls self <> ClsOllama ->
  (exists b,
     lookup_key "success" (Agent.test_connection render w self) = Some (VBool b)) /\
  (lookup_key "success" (Agent.test_connection render w self) = Some (VBool true) <->
   exists r, send w (probe self) = Ok r /\ status_code r = 200%Z).
Proof.
  unfold Agent.test_connection, probe. intros Hcls.
  destruct (cls self); try contradiction.
  - unfold OpenAIAgent.test_connection, OpenAIAgent.test_connection_try.
    probe_cases Hs; [destruct (Z.eqb_spec (status_code r) 200)|]; cbn;
      (split; [eexists; reflexivity|]); split;
      try discriminate; try (intros (r' & [=] & Hr); congruence); eauto.
  - unfold ClaudeAgent.test_connection, ClaudeAgent.test_connection_try.
    probe_cases Hs; [destruct (Z.eqb_spec (status_code r) 200)|]; cbn;
      (split; [eexists; reflexivity|]); split;
      try discriminate; try (intros (r' & [=] & Hr); congruence); eauto.
  - unfold GeminiAgent.test_connection, GeminiAgent.test_connection_try.
    probe_cases Hs; [destruct (Z.eqb_spec (status_code r) 200)|]; cbn;
      (split; [eexists; reflexivity|]); split;
      try discriminate; try (intros (r' & [=] & Hr); congruence); eauto.
  - unfold GroqAgent.test_connection, GroqAgent.test_connection_try.
    probe_cases Hs; [destruct (Z.eqb_spec (status_code r) 200)|]; cbn;
      (split; [eexists; reflexivity|]); split;
      try discriminate; try (intros (r' & [=] & Hr); congruence); eauto.
Qed.

Lemma test_connection_success_iff_witness :
  (exists b,
     lookup_key "success"
       (Agent.test_connection no_render (answering VNone) (ClaudeAgent.init scenario3))
     = Some (VBool b)) /\
  (lookup_key "success"
     (Agent.test_connection no_render (answering VNone) (ClaudeAgent.init scenario3))
   = Some (VBool true) <->
   exists r,
     send (answering VNone) (probe (ClaudeAgent.init scenario3)) = Ok r /\
     status_code r = 200%Z).
Proof.
  refine (test_connection_success_iff no_render (answering VNone)
            (ClaudeAgent.init scenario3) _).
  discriminate.
Defined.

(** X15.  A probe answered with a status other than 200 gives, for every class,
    [success: False] with the error ["Error HTTP <status>"]; the message is
    the raw text of the reply (for Ollama a fixed sentence). *)
Theorem test_connection_http_error (render : value -> string) (w : world)
    (self : agent) (r : response) :
  send w (probe self) = Ok r ->
  status_code r <> 200%Z ->
  Agent.test_connection render w self
  = display
      [("success", VBool false);
       ("error", VStr ("Error HTTP " ++ str_of_int (status_code r)));
       ("message",
        VStr (match cls self with
              | ClsOllama => "Ollama responde pero hay un error"
              | _ => text r
              end))].
Proof.
  unfold Agent.test_connection, probe. intros Hs Hcode.
  apply Z.eqb_neq in Hcode.
  destruct (cls self).
  - unfold OpenAIAgent.test_connection, OpenAIAgent.test_connection_try.
    rewrite Hs. cbn [bind]. rewrite Hcode. reflexivity.
  - unfold ClaudeAgent.test_connection, ClaudeAgent.test_connection_try.
    rewrite Hs. cbn [bind]. rewrite Hcode. reflexivity.
  - unfold GeminiAgent.test_connection, GeminiAgent.test_connection_try.
    rewrite Hs. cbn [bind]. rewrite Hcode. reflexivity.
  - unfold OllamaAgent.test_connection, OllamaAgent.test_connection_try.
    rewrite Hs. cbn [bind]. rewrite Hcode. reflexivity.
  - unfold GroqAgent.test_connection, GroqAgent.test_connection_try.
    rewrite Hs. cbn [bind]. rewrite Hcode. reflexivity.
Qed.

Lemma test_connection_http_error_witness :
  Agent.test_connection no_render (refusing 401 "Unauthorized")
    (OpenAIAgent.init scenario1)
  = display [("success", VBool false);
             ("error", VStr "Error HTTP 401");
             ("message", VStr "Unauthorized")].
Proof.
  refine (test_connection_http_error no_render (refusing 401 "Unauthorized")
            (OpenAIAgent.init scenario1) _ eq_refl _).
  discriminate.
Defined.

Lemma for_each_named (key : string) (entries : list value) (names : list string) :
  Forall2 (named key) entries names ->
  for_each (fun model => item model key) entries = Ok (map VStr names).
Proof.
  induction 1 as [|entry n entries names Hn _ IH]; [reflexivity|].
  cbn [for_each map]. rewrite (field_item _ _ _ Hn). cbn [bind].
  rewrite IH. reflexivity.
Qed.

Lemma member_strs (m : string) (names : list string) :
  member (VStr m) (map VStr names) = true <-> In m names.
Proof.
  unfold member. induction names as [|n names IH]; cbn; [split; [discriminate|tauto]|].
  rewrite orb_true_iff, IH, String.eqb_eq. tauto.
Qed.

Lemma join_strs (sep : string) (names : list string) (i : nat) :
  exists s, join_from i sep (map VStr names) = Ok s.
Proof.
  revert i. induction names as [|n names IH]; intros i; [eexists; reflexivity|].
  cbn [map join_from]. destruct names as [|n' names]; [eexists; reflexivity|].
  destruct (IH (S i)) as [s Hs]. cbn [map] in *. rewrite Hs. eexists. reflexivity.
Qed.

(** X16.  The Ollama probe succeeds only if the configured model name is, letter
    for letter, the name of a listed model: given a 200 reply listing models
    by name, [success] is [True] exactly when the name is in the listing,
    and [False] otherwise. *)
Theorem ollama_test_connection_listed (render : value -> string) (w : world)
    (self : agent) (r : response) (d : dict) (entries : list value)
    (names : list string) (m : string) :
  send w (OllamaAgent.probe_request self) = Ok r ->
  status_code r = 200%Z ->
  json r = Ok (VDict d) ->
  lookup_key "models" d = Some (VList entries) ->
  Forall2 (named "name") entries names ->
  model_name self = VStr m ->
  lookup_key "success" (OllamaAgent.test_connection render w self)
  = Some (VBool (if in_dec string_dec m names then true else false)) /\
  lookup_key "available_models" (OllamaAgent.test_connection render w self)
  = Some (VList (map VStr names)).
Proof.
  intros Hs Hcode Hjson Hmodels Hnames Hm.
  unfold OllamaAgent.test_connection, OllamaAgent.test_connection_try.
  rewrite Hs. cbn [bind]. rewrite Hcode. cbn [Z.eqb Pos.eqb].
  rewrite Hjson. cbn [bind]. unfold method_get, get_or. rewrite Hmodels.
  cbn [bind iterate].
  rewrite (for_each_named _ _ _ Hnames). cbn [bind]. rewrite Hm.
  destruct (in_dec string_dec m names) as [Hin|Hout].
  - apply member_strs in Hin. rewrite Hin. split; reflexivity.
  - destruct (member (VStr m) (map VStr names)) eqn:E;
      [apply member_strs in E; contradiction|].
    destruct (join_strs ", " names 0) as [s Hj]. unfold join. rewrite Hj.
    split; reflexivity.
Qed.

Lemma ollama_test_connection_listed_witness :
  lookup_key "success"
    (OllamaAgent.test_connection no_render two_models (OllamaAgent.init scenario2))
  = Some (VBool false) /\
  lookup_key "available_models"
    (OllamaAgent.test_connection no_render two_models (OllamaAgent.init scenario2))
  = Some (VList [VStr "mistral:latest"; VStr "llama3.1:8b"]).
Proof.
  refine (ollama_test_connection_listed no_render two_models
            (OllamaAgent.init scenario2) _ _ _ ["mistral:latest"; "llama3.1:8b"]
            "llama3.1" eq_refl eq_refl eq_refl eq_refl _ eq_refl).
  repeat constructor.
Defined.

(** ** More on the manager *)

Section ManagerMore.

Import AgentManager.

(** X17.  The default is kept by id: after the default agent is removed, the id
    stays, and registering any agent under it makes that agent the default
    again, without a call of [set_default_agent]. *)
Theorem removed_default_comes_back (m : manager) (agent_id : string) (b : agent) :
  agent_id <> "" ->
  default_agent m = Some agent_id ->
  get_default_agent (remove_agent agent_id m) = None /\
  get_default_agent (add_agent agent_id b (remove_agent agent_id m)) = Some b.
Proof.
  intros Hne Hd. split; [apply remove_default, Hd|].
  assert (Hd' : default_agent (remove_agent agent_id m) = Some agent_id).
  { unfold remove_agent. destruct (active_agents m !! agent_id); exact Hd. }
  unfold get_default_agent, add_agent. cbn. rewrite Hd'.
  destruct (String.eqb_spec agent_id "") as [->|_]; [contradiction|]. cbn.
  apply lookup_insert_eq.
Qed.

Lemma removed_default_comes_back_witness :
  get_default_agent (remove_agent "a" one_default) = None /\
  get_default_agent
    (add_agent "a" (OllamaAgent.init scenario2) (remove_agent "a" one_default))
  = Some (OllamaAgent.init scenario2).
Proof.
  refine (removed_default_comes_back one_default "a" (OllamaAgent.init scenario2)
            _ eq_refl).
  discriminate.
Defined.

(** X18.  An agent registered under the empty string is found by [get_agent], and
    [set_default_agent] accepts the id, but [get_default_agent] never returns
    it: the empty id counts as no default. *)
Theorem empty_id_is_never_default (m : manager) (a : agent) :
  let m' := set_default_agent "" (add_agent "" a m) in
  get_agent "" m' = Some a /\
  default_agent m' = Some "" /\
  get_default_agent m' = None.
Proof.
  cbn zeta. unfold set_default_agent, add_agent, get_agent, get_default_agent. cbn.
  rewrite lookup_insert_eq. cbn. rewrite lookup_insert_eq. auto.
Qed.

(** X19.  With a default id set: an agent added under that id becomes the default;
    adding or removing an agent under any other id leaves the default as it
    is. *)
Theorem default_follows_its_id (m : manager) (agent_id : string) :
  agent_id <> "" ->
  default_agent m = Some agent_id ->
  (forall b, get_default_agent (add_agent agent_id b m) = Some b) /\
  (forall other b,
     other <> agent_id ->
     get_default_agent (add_agent other b m) = get_default_agent m /\
     get_default_agent (remove_agent other m) = get_default_agent m).
Proof.
  intros Hne Hd.
  assert (Hnb : negb (String.eqb agent_id "") = true).
  { destruct (String.eqb_spec agent_id ""); [contradiction | reflexivity]. }
  split.
  - intros b. unfold get_default_agent, add_agent. cbn. rewrite Hd, Hnb.
    apply lookup_insert_eq.
  - intros other b Hother. split.
    + unfold get_default_agent, add_agent. cbn. rewrite Hd, Hnb.
      apply lookup_insert_ne. exact Hother.
    + unfold remove_agent. destruct (active_agents m !! other); [|reflexivity].
      unfold get_default_agent. cbn. rewrite Hd, Hnb.
      apply lookup_delete_ne. exact Hother.
Qed.

Lemma default_follows_its_id_witness :
  (forall b, get_default_agent (add_agent "a" b one_default) = Some b) /\
  (forall other b,
     other <> "a" ->
     get_default_agent (add_agent other b one_default) = get_default_agent one_default /\
     get_default_agent (remove_agent other one_default)
     = get_default_agent one_default).
Proof.
  refine (default_follows_its_id one_default "a" _ eq_refl). discriminate.
Defined.

(** [get_agent] after one operation: an id the operation does not name keeps
    its instance. *)
Lemma get_agent_after_step (m : manager) (o : op) (agent_id : string) :
  get_agent agent_id (step m o)
  = match o with
    | AddAgent k a => if String.eqb k agent_id then Some a else get_agent agent_id m
    | RemoveAgent k => if String.eqb k agent_id then None else get_agent agent_id m
    | SetDefaultAgent _ => get_agent agent_id m
    | ClearAgents => None
    end.
Proof.
  unfold get_agent. destruct o as [k a|k|k|]; cbn.
  - destruct (String.eqb_spec k agent_id) as [->|Hne];
      [apply lookup_insert_eq | apply lookup_insert_ne, Hne].
  - unfold remove_agent.
    destruct (String.eqb_spec k agent_id) as [->|Hne].
    + destruct (active_agents m !! agent_id) eqn:E; [apply lookup_delete_eq | exact E].
    + destruct (active_agents m !! k); [apply lookup_delete_ne, Hne | reflexivity].
  - unfold set_default_agent. destruct (active_agents m !! k); reflexivity.
  - apply lookup_empty.
Qed.

End ManagerMore.

(** ** Listings *)

Lemma ltb_leb (a b : string) : String.ltb a b = true -> str_le a b.
Proof. unfold str_le, String.ltb, String.leb. destruct (String.compare a b); auto. Qed.

Lemma not_ltb_leb (a b : string) : String.ltb a b = false -> str_le b a.
Proof.
  unfold str_le, String.ltb, String.leb. rewrite (String.compare_antisym a b).
  destruct (String.compare b a); cbn; auto; discriminate.
Qed.

Lemma insert_sorted_strs (x : string) (out : list string) :
  Sorted str_le out ->
  exists out',
    insert_sorted (VStr x) (map VStr out) = Ok (map VStr out') /\
    Sorted str_le out' /\
    Permutation out' (x :: out) /\
    (forall y, str_le y x -> HdRel str_le y out -> HdRel str_le y out').
Proof.
  induction out as [|y out IH]; intros Hs.
  - exists [x]. cbn. repeat split; auto.
  - cbn [map insert_sorted py_lt bind]. inversion Hs as [|? ? Hs' Hhd]; subst.
    destruct (String.ltb y x) eqn:E.
    + destruct (IH Hs') as (out' & Heq & Hsorted & Hperm & Hrel).
      rewrite Heq. cbn [bind]. exists (y :: out'). cbn [map].
      split; [reflexivity|]. split; [|split].
      * constructor; [exact Hsorted|]. apply Hrel; [apply ltb_leb, E | exact Hhd].
      * rewrite Hperm. apply perm_swap.
      * intros z Hzx Hz. inversion Hz; subst. constructor. assumption.
    + exists (x :: y :: out). cbn [map]. split; [reflexivity|]. split; [|split].
      * constructor; [exact Hs|]. constructor. apply not_ltb_leb, E.
      * reflexivity.
      * intros z Hzx _. constructor. exact Hzx.
Qed.

(** [sorted] on a list of strings: it returns, and what it returns is in
    ascending order and holds the same strings. *)
Lemma sorted_strs (l : list string) :
  exists out,
    sorted (map VStr l) = Ok (map VStr out) /\ Sorted str_le out /\ Permutation out l.
Proof.
  induction l as [|x l (out & Heq & Hs & Hp)].
  - exists []. cbn. auto.
  - cbn [map sorted]. rewrite Heq. cbn [bind].
    destruct (insert_sorted_strs x out Hs) as (out' & Heq' & Hs' & Hp' & _).
    exists out'. split; [exact Heq'|]. split; [exact Hs'|].
    rewrite Hp'. constructor. exact Hp.
Qed.

Lemma select_chat_models (ids : list string) :
  select (fun m => any (fun x => contains x m) ["gpt-4"; "gpt-3.5"]) (map VStr ids)
  = Ok (map VStr (List.filter chat_model ids)).
Proof.
  induction ids as [|id ids IH]; [reflexivity|].
  change (map VStr (id :: ids)) with (VStr id :: map VStr ids).
  cbn [select]. rewrite IH. unfold chat_model. cbn [any contains bind List.filter].
  destruct (is_substring "gpt-4" id); cbn; [reflexivity|].
  destruct (is_substring "gpt-3.5" id); reflexivity.
Qed.

(** X20.  On a 200 reply that lists models by id, the OpenAI client returns the
    ids that contain ["gpt-4"] or ["gpt-3.5"], each as often as listed, in
    ascending order; every other id is left out. *)
Theorem openai_listing_sorted (w : world) (self : agent) (r : response) (d : dict)
    (entries : list value) (ids : list string) :
  send w (OpenAIAgent.models_request self) = Ok r ->
  status_code r = 200%Z ->
  json r = Ok (VDict d) ->
  lookup_key "data" d = Some (VList entries) ->
  Forall2 (named "id") entries ids ->
  exists out,
    OpenAIAgent.get_available_models w self = map VStr out /\
    Sorted str_le out /\
    Permutation out (List.filter chat_model ids).
Proof.
  intros Hs Hcode Hjson Hdata Hids.
  unfold OpenAIAgent.get_available_models, OpenAIAgent.get_available_models_try.
  rewrite Hs. cbn [bind]. rewrite Hcode. cbn [Z.eqb Pos.eqb].
  rewrite Hjson. cbn [bind contains item]. rewrite Hdata. cbn [bind iterate].
  rewrite (for_each_named _ _ _ Hids). cbn [bind].
  rewrite select_chat_models. cbn [bind].
  destruct (sorted_strs (List.filter chat_model ids)) as (out & Heq & Hsorted & Hperm).
  rewrite Heq. exists out. auto.
Qed.

Lemma openai_listing_sorted_witness :
  exists out,
    OpenAIAgent.get_available_models openai_catalog (OpenAIAgent.init scenario1)
    = map VStr out /\
    Sorted str_le out /\
    Permutation out
      (List.filter chat_model ["gpt-4o"; "whisper-1"; "gpt-3.5-turbo"; "dall-e-3"]).
Proof.
  refine (openai_listing_sorted openai_catalog (OpenAIAgent.init scenario1) _ _ _
            ["gpt-4o"; "whisper-1"; "gpt-3.5-turbo"; "dall-e-3"]
            eq_refl eq_refl eq_refl eq_refl _).
  repeat constructor.
Defined.

(** X21.  On a 200 reply that lists models by id, the Groq client returns all the
    ids in ascending order. *)
Theorem groq_listing_sorted (w : world) (self : agent) (r : response) (d : dict)
    (entries : list value) (ids : list string) :
  send w (GroqAgent.models_request self) = Ok r ->
  status_code r = 200%Z ->
  json r = Ok (VDict d) ->
  lookup_key "data" d = Some (VList entries) ->
  Forall2 (named "id") entries ids ->
  exists out,
    GroqAgent.get_available_models w self = map VStr out /\
    Sorted str_le out /\
    Permutation out ids.
Proof.
  intros Hs Hcode Hjson Hdata Hids.
  unfold GroqAgent.get_available_models, GroqAgent.get_available_models_try.
  rewrite Hs. cbn [bind]. rewrite Hcode. cbn [Z.eqb Pos.eqb].
  rewrite Hjson. cbn [bind contains item]. rewrite Hdata. cbn [bind iterate].
  rewrite (for_each_named _ _ _ Hids). cbn [bind].
  destruct (sorted_strs ids) as (out & Heq & Hsorted & Hperm).
  rewrite Heq. exists out. auto.
Qed.

Lemma groq_listing_sorted_witness :
  exists out,
    GroqAgent.get_available_models openai_catalog (GroqAgent.init scenario5)
    = map VStr out /\
    Sorted str_le out /\
    Permutation out ["gpt-4o"; "whisper-1"; "gpt-3.5-turbo"; "dall-e-3"].
Proof.
  refine (groq_listing_sorted openai_catalog (GroqAgent.init scenario5) _ _ _
            ["gpt-4o"; "whisper-1"; "gpt-3.5-turbo"; "dall-e-3"]
            eq_refl eq_refl eq_refl eq_refl _).
  repeat constructor.
Defined.

(** X22.  On a 200 reply that lists models by name, the Ollama client returns all
    the names in ascending order. *)
Theorem ollama_listing_sorted (w : world) (self : agent) (r : response) (d : dict)
    (entries : list value) (names : list string) :
  send w (OllamaAgent.tags_request self) = Ok r ->
  status_code r = 200%Z ->
  json r = Ok (VDict d) ->
  lookup_key "models" d = Some (VList entries) ->
  Forall2 (named "name") entries names ->
  exists out,
    OllamaAgent.get_available_models w self = map VStr out /\
    Sorted str_le out /\
    Permutation out names.
Proof.
  intros Hs Hcode Hjson Hdata Hnames.
  unfold OllamaAgent.get_available_models, OllamaAgent.get_available_models_try.
  rewrite Hs. cbn [bind]. rewrite Hcode. cbn [Z.eqb Pos.eqb].
  rewrite Hjson. cbn [bind]. unfold method_get, get_or. rewrite Hdata.
  cbn [bind iterate].
  rewrite (for_each_named _ _ _ Hnames). cbn [bind].
  destruct (sorted_strs names) as (out & Heq & Hsorted & Hperm).
  rewrite Heq. exists out. auto.
Qed.

Lemma ollama_listing_sorted_witness :
  exists out,
    OllamaAgent.get_available_models two_models (OllamaAgent.init scenario2)
    = map VStr out /\
    Sorted str_le out /\
    Permutation out ["mistral:latest"; "llama3.1:8b"].
Proof.
  refine (ollama_listing_sorted two_models (OllamaAgent.init scenario2) _ _ _
            ["mistral:latest"; "llama3.1:8b"] eq_refl eq_refl eq_refl eq_refl _).
  repeat constructor.
Defined.

Lemma existsb_methods (methods : list string) :
  existsb (fun x => eq_str x "generateContent") (map VStr methods)
  = existsb (fun method => String.eqb method "generateContent") methods.
Proof. induction methods as [|m ms IH]; [reflexivity|]. cbn. rewrite IH. reflexivity. Qed.

Lemma generation_models_names (entries : list value)
    (listing : list (string * list string)) :
  Forall2 gemini_entry entries listing ->
  GeminiAgent.generation_models entries = Ok (map VStr (gemini_names listing)).
Proof.
  induction 1 as [|entry [n ms] entries listing (e & -> & Hn & Hm) _ IH];
    [reflexivity|].
  cbn [GeminiAgent.generation_models]. unfold method_get, get_or.
  cbn [fst snd] in Hn, Hm. rewrite Hn, Hm.
  cbn [bind method_replace contains]. rewrite IH. cbn [bind].
  rewrite existsb_methods. unfold gemini_names. cbn [List.filter].
  change (generates (n, ms))
    with (existsb (fun method => String.eqb method "generateContent") ms).
  destruct (existsb _ ms); reflexivity.
Qed.

(** X23.  On a 200 reply that lists models with their generation methods, the
    Gemini client returns, in ascending order, the names of the models that
    support ["generateContent"], with ["models/"] cut out of each name. *)
Theorem gemini_listing_sorted (w : world) (self : agent) (r : response) (d : dict)
    (entries : list value) (listing : list (string * list string)) :
  send w (GeminiAgent.models_request self) = Ok r ->
  status_code r = 200%Z ->
  json r = Ok (VDict d) ->
  lookup_key "models" d = Some (VList entries) ->
  Forall2 gemini_entry entries listing ->
  exists out,
    GeminiAgent.get_available_models w self = map VStr out /\
    Sorted str_le out /\
    Permutation out (gemini_names listing).
Proof.
  intros Hs Hcode Hjson Hdata Hlisting.
  unfold GeminiAgent.get_available_models, GeminiAgent.get_available_models_try.
  rewrite Hs. cbn [bind]. rewrite Hcode. cbn [Z.eqb Pos.eqb].
  rewrite Hjson. cbn [bind contains item]. rewrite Hdata. cbn [bind iterate].
  rewrite (generation_models_names _ _ Hlisting). cbn [bind].
  destruct (sorted_strs (gemini_names listing)) as (out & Heq & Hsorted & Hperm).
  rewrite Heq. exists out. auto.
Qed.

Lemma gemini_listing_sorted_witness :
  exists out,
    GeminiAgent.get_available_models gemini_catalog (GeminiAgent.init gemini_flash)
    = map VStr out /\
    Sorted str_le out /\
    Permutation out ["gemini-pro"; "gemini-1.5-flash"].
Proof.
  refine (gemini_listing_sorted gemini_catalog (GeminiAgent.init gemini_flash) _ _ _
            [("models/gemini-pro", ["generateContent"; "countTokens"]);
             ("models/embedding-001", ["embedContent"]);
             ("models/gemini-1.5-flash", ["generateContent"])]
            eq_refl eq_refl eq_refl eq_refl _).
  repeat constructor; eexists; repeat split.
Defined.

Ltac listing_case Hsend :=
  rewrite Hsend; cbn [bind];
  match goal with
  | |- context [(status_code ?r =? 200)%Z] =>
      destruct (status_code r =? 200)%Z; [|reflexivity]
  end.

(** X24.  A 200 reply whose body is not JSON, or is JSON but not an object (an
    array, a string, a number, [null]), gives the fixed list of the class. *)
Theorem listing_body_not_object (w : world) (self : agent) (r : response) :
  (forall req, send w req = Ok r) ->
  match json r with
  | Raise _ => True
  | Ok data => forall d, data <> VDict d
  end ->
  Agent.get_available_models w self = fixed_models (cls self).
Proof.
  intros Hsend Hbody. unfold Agent.get_available_models, fixed_models.
  destruct (cls self); [| reflexivity | | |].
  - unfold OpenAIAgent.get_available_models, OpenAIAgent.get_available_models_try.
    listing_case Hsend.
    destruct (json r) as [data|]; [|reflexivity].
    destruct data; cbn; try reflexivity; [| |destruct (Hbody d eq_refl)];
      match goal with |- context [if ?b then _ else _] => destruct b end; reflexivity.
  - unfold GeminiAgent.get_available_models, GeminiAgent.get_available_models_try.
    listing_case Hsend.
    destruct (json r) as [data|]; [|reflexivity].
    destruct data; cbn; try reflexivity; [| |destruct (Hbody d eq_refl)];
      match goal with |- context [if ?b then _ else _] => destruct b end; reflexivity.
  - unfold OllamaAgent.get_available_models, OllamaAgent.get_available_models_try.
    listing_case Hsend.
    destruct (json r) as [data|]; [|reflexivity].
    destruct data; cbn; try reflexivity. destruct (Hbody d eq_refl).
  - unfold GroqAgent.get_available_models, GroqAgent.get_available_models_try.
    listing_case Hsend.
    destruct (json r) as [data|]; [|reflexivity].
    destruct data; cbn; try reflexivity; [| |destruct (Hbody d eq_refl)];
      match goal with |- context [if ?b then _ else _] => destruct b end; reflexivity.
Qed.

Lemma listing_body_not_object_witness :
  Agent.get_available_models html_page (GroqAgent.init scenario5)
  = GroqAgent.fallback_models.
Proof.
  exact (listing_body_not_object html_page (GroqAgent.init scenario5) _
           (fun _ => eq_refl) I).
Defined.

(** X25.  A 200 reply whose object lacks the listing key ([data] for OpenAI and
    Groq, [models] for Gemini and Ollama): the hosted classes return their
    fixed list, the Ollama client returns the empty list. *)
Theorem listing_without_key (w : world) (self : agent) (r : response) (d : dict) :
  (forall req, send w req = Ok r) ->
  status_code r = 200%Z ->
  json r = Ok (VDict d) ->
  lookup_key (listing_key (cls self)) d = None ->
  Agent.get_available_models w self
  = match cls self with
    | ClsOllama => []
    | c => fixed_models c
    end.
Proof.
  intros Hsend Hcode Hjson Hkey. unfold Agent.get_available_models.
  destruct (cls self); cbn [listing_key] in Hkey; [| reflexivity | | |].
  - unfold OpenAIAgent.get_available_models, OpenAIAgent.get_available_models_try.
    rewrite Hsend. cbn [bind]. rewrite Hcode, Hjson. cbn. rewrite Hkey. reflexivity.
  - unfold GeminiAgent.get_available_models, GeminiAgent.get_available_models_try.
    rewrite Hsend. cbn [bind]. rewrite Hcode, Hjson. cbn. rewrite Hkey. reflexivity.
  - unfold OllamaAgent.get_available_models, OllamaAgent.get_available_models_try.
    rewrite Hsend. cbn [bind]. rewrite Hcode, Hjson. cbn [bind Z.eqb Pos.eqb].
    unfold method_get, get_or. rewrite Hkey. reflexivity.
  - unfold GroqAgent.get_available_models, GroqAgent.get_available_models_try.
    rewrite Hsend. cbn [bind]. rewrite Hcode, Hjson. cbn. rewrite Hkey. reflexivity.
Qed.

Lemma listing_without_key_witness :
  Agent.get_available_models (answering (VDict [])) (OllamaAgent.init scenario2) = [].
Proof.
  exact (listing_without_key (answering (VDict [])) (OllamaAgent.init scenario2) _ []
           (fun _ => eq_refl) eq_refl eq_refl eq_refl).
Defined.

(** ** More on the cost estimate *)

Lemma find_not_in {A : Type} (m : string) (table : list (string * A)) :
  ~ In m (map fst table) ->
  find (fun kv => String.eqb m (fst kv)) table = None.
Proof.
  induction table as [|[k x] table IH]; intros H; [reflexivity|]. cbn in *.
  destruct (String.eqb_spec m k) as [->|_]; [destruct H; auto|].
  apply IH. intros Hin. apply H. auto.
Qed.

(** X26.  For a model name that the rate table of the class does not hold, the
    estimate uses the rates of the class's default model; no [KeyError]. *)
Theorem unknown_model_default_rate (self : agent) (m message response : string) :
  cls self <> ClsOllama ->
  model_name self = VStr m ->
  ~ In m (map fst (costs_of (cls self))) ->
  In (default_model (cls self)) (map fst (costs_of (cls self))) /\
  Agent.estimate_cost self message response
  = Ok (cost_of (rates_of (cls self) (default_model (cls self)))
          (String.length message / 4) (String.length response / 4)).
Proof.
  unfold Agent.estimate_cost. intros Hcls Hm Hout.
  destruct (cls self); try contradiction; cbn [costs_of] in Hout.
  - split; [cbn; tauto|].
    unfold OpenAIAgent.estimate_cost, table_get. rewrite Hm, (find_not_in _ _ Hout).
    reflexivity.
  - split; [cbn; tauto|].
    unfold ClaudeAgent.estimate_cost, table_get. rewrite Hm, (find_not_in _ _ Hout).
    reflexivity.
  - split; [cbn; tauto|].
    unfold GeminiAgent.estimate_cost, table_get. rewrite Hm, (find_not_in _ _ Hout).
    reflexivity.
  - split; [cbn; tauto|].
    unfold GroqAgent.estimate_cost, table_get. rewrite Hm, (find_not_in _ _ Hout).
    reflexivity.
Qed.

Lemma unknown_model_default_rate_witness :
  In "llama-3.1-70b-versatile" (map fst GroqAgent.costs) /\
  Agent.estimate_cost (GroqAgent.init scenario5) "12345678" "1234"
  = Ok (cost_of (0.00059, 0.00079)%Q 2 1).
Proof.
  refine (unknown_model_default_rate (GroqAgent.init scenario5) "llama-9"
            "12345678" "1234" _ eq_refl _).
  - discriminate.
  - cbn. intuition discriminate.
Defined.

(** X27.  The estimate counts whole tokens of four characters: two pairs of texts
    with the same [len // 4] on both sides cost the same, so up to three
    characters more on either side are free. *)
Theorem cost_counts_whole_tokens (self : agent) (m1 r1 m2 r2 : string) :
  (String.length m1 / 4 = String.length m2 / 4)%nat ->
  (String.length r1 / 4 = String.length r2 / 4)%nat ->
  Agent.estimate_cost self m1 r1 = Agent.estimate_cost self m2 r2.
Proof.
  intros Hm Hr. unfold Agent.estimate_cost.
  destruct (cls self);
    [unfold OpenAIAgent.estimate_cost | unfold ClaudeAgent.estimate_cost
     | unfold GeminiAgent.estimate_cost | reflexivity | unfold GroqAgent.estimate_cost];
    cbv zeta; rewrite Hm, Hr; reflexivity.
Qed.

Lemma cost_counts_whole_tokens_witness :
  Agent.estimate_cost (OpenAIAgent.init gpt4o) "hola" "si"
  = Agent.estimate_cost (OpenAIAgent.init gpt4o) "holaaaa" "".
Proof.
  exact (cost_counts_whole_tokens (OpenAIAgent.init gpt4o) "hola" "si" "holaaaa" ""
           eq_refl eq_refl).
Defined.

(** X28.  [estimate_cost] of a hosted class and [GroqAgent.get_model_info] look the
    model name up in a dict without a [try]: a model name that cannot be
    hashed (a list, a dict) makes them raise a [TypeError]. *)
Theorem unhashable_model_raises (self : agent) (message response : string) :
  hashable (model_name self) = false ->
  (cls self <> ClsOllama ->
   exists e,
     Agent.estimate_cost self message response = Raise e /\
     exn_class_of e = TypeError) /\
  (exists e, GroqAgent.get_model_info self = Raise e /\ exn_class_of e = TypeError).
Proof.
  intros H. split.
  - intros Hc. unfold Agent.estimate_cost.
    destruct (cls self); try contradiction;
      [unfold OpenAIAgent.estimate_cost | unfold ClaudeAgent.estimate_cost
       | unfold GeminiAgent.estimate_cost | unfold GroqAgent.estimate_cost];
      destruct (model_name self); try discriminate H; cbn; eexists; split; reflexivity.
  - unfold GroqAgent.get_model_info.
    destruct (model_name self); try discriminate H; cbn; eexists; split; reflexivity.
Qed.

Lemma unhashable_model_raises_witness :
  (ClsGroq <> ClsOllama ->
   exists e,
     Agent.estimate_cost
       (GroqAgent.init [("model_name", VList [VStr "a"; VStr "b"])]) "hola" "hola"
     = Raise e /\
     exn_class_of e = TypeError) /\
  (exists e,
     GroqAgent.get_model_info (GroqAgent.init [("model_name", VList [VStr "a"; VStr "b"])])
     = Raise e /\
     exn_class_of e = TypeError).
Proof.
  exact (unhashable_model_raises
           (GroqAgent.init [("model_name", VList [VStr "a"; VStr "b"])])
           "hola" "hola" eq_refl).
Defined.

(** X29.  For a model name that can be hashed, [GroqAgent.get_model_info] returns a
    record with a context length between 8192 and 131072; 8192 is what a
    model outside its table gets. *)
Theorem groq_context_length (self : agent) :
  hashable (model_name self) = true ->
  exists info n,
    GroqAgent.get_model_info self = Ok info /\
    lookup_key "context_length" info = Some (VInt n) /\
    (8192 <= n <= 131072)%Z /\
    ((forall m, model_name self = VStr m -> ~ In m (map fst GroqAgent.model_info)) ->
     n = 8192%Z).
Proof.
  intros H. unfold GroqAgent.get_model_info.
  destruct (model_name self) as [| | | |m| |]; try discriminate H;
    try (cbn; do 2 eexists; repeat split; try reflexivity; lia).
  unfold table_get.
  destruct (find (fun kv => String.eqb m (fst kv)) GroqAgent.model_info)
    as [kv|] eqn:E.
  - pose proof (find_some _ _ E) as [Hin _].
    cbn in Hin.
    destruct Hin as [<-|[<-|[<-|[<-|[]]]]];
      do 2 eexists; (split; [reflexivity|]); (split; [reflexivity|]);
      (split; [lia|]); intros Hout; exfalso; apply (Hout _ eq_refl);
      apply find_some in E; destruct E as [_ E]; apply String.eqb_eq in E;
      rewrite E; cbn; tauto.
  - do 2 eexists. repeat split; try reflexivity; lia.
Qed.

Lemma groq_context_length_witness :
  exists info n,
    GroqAgent.get_model_info (GroqAgent.init scenario5) = Ok info /\
    lookup_key "context_length" info = Some (VInt n) /\
    (8192 <= n <= 131072)%Z /\
    ((forall m,
        model_name (GroqAgent.init scenario5) = VStr m ->
        ~ In m (map fst GroqAgent.model_info)) ->
     n = 8192%Z).
Proof. exact (groq_context_length (GroqAgent.init scenario5) eq_refl). Defined.

(** ** [get_info] *)

(** X30.  [get_info] has the six keys [name], [provider], [model_name],
    [max_tokens], [temperature] and [status] and no other (the API key is not
    among them); for a client built from a config the status is
    ["configured"] when the config is valid and ["error"] otherwise. *)
Theorem get_info_fields (c : agent_class) (config : dict) :
  let info := get_info (Agent.construct c config) in
  map fst info
  = ["name"; "provider"; "model_name"; "max_tokens"; "temperature"; "status"] /\
  lookup_key "api_key" info = None /\
  ((non_empty config "name" /\ non_empty config "provider" /\
    non_empty config "model_name" /\
    (non_empty config "api_key" \/ local_provider config)) ->
   lookup_key "status" info = Some (VStr "configured")) /\
  (~ (non_empty config "name" /\ non_empty config "provider" /\
      non_empty config "model_name" /\
      (non_empty config "api_key" \/ local_provider config)) ->
   lookup_key "status" info = Some (VStr "error")).
Proof.
  cbn zeta. rewrite construct_base. pose proof (validate_config_init config) as Hv.
  unfold get_info.
  destruct (validate_config (BaseAgent.init config)); cbn.
  - repeat split; auto. intros H. destruct H. apply Hv. reflexivity.
  - repeat split; auto. intros H. apply Hv in H. discriminate H.
Qed.
